(** * Smart quiz app: the spaced-repetition scheduler and the quiz selector

    A shallow embedding of [SpacedRepetition.py], of the selection methods of
    [QuizLoader.py] and of the per-user report of [ErrorAnalyzer.py],
    together with the properties their specification states about them.

    Conventions of the embedding.
    - Python [int] is [Z].  Python [float] is idealised as an exact rational
      [Q]: sums, products and quotients are exact, and equality of two
      rationals is [Qeq] (written [==]).
    - A naive [datetime] is its number of microseconds on the local time
      line, a [Z]; [timedelta(days=n)] is [n * day_us]; the ISO string a
      record keeps for a datetime is identified with that datetime.  The
      calendar date of a datetime is its day number [t / day_us]; the text
      produced by [strftime('%Y-%m-%d')] is identified with that day number.
    - [datetime.now()] is not a function of the program state: every method
      that reads the clock takes the reading as its argument [now], one
      reading for the whole call.
    - A Python [dict] keeps its keys in insertion order, so it is an
      association list without repeated keys.
    - What a method does to the manager object is explicit state passing on
      the record [Manager]; a method that can raise returns a [result]. *)

From Stdlib Require Import ZArith QArith Qround String Ascii List Bool.
From Stdlib Require Import Lia Lqa Permutation DecimalString Sorted.
Import ListNotations.

Local Open Scope string_scope.
Local Open Scope Z_scope.

(** ** Numbers *)

Module Num.

(** [int(x)] on a float: truncation towards zero. *)
Definition py_int (x : Q) : Z := Z.quot (Qnum x) (Zpos (Qden x)).

(** [max(a, b)] on floats: the first argument unless the second is larger. *)
Definition py_max (a b : Q) : Q := if Qlt_le_dec a b then b else a.

(** [round(x, nd)]: to [nd] decimals, a tie going to the even neighbour. *)
Definition py_round (x : Q) (nd : nat) : Q :=
  let scale := inject_Z (10 ^ Z.of_nat nd) in
  let y := (x * scale)%Q in
  let lo := Qfloor y in
  let frac := (y - inject_Z lo)%Q in
  let n :=
    if Qlt_le_dec frac (1 # 2) then lo
    else if Qlt_le_dec (1 # 2) frac then lo + 1
    else if Z.even lo then lo else lo + 1 in
  (inject_Z n / scale)%Q.

(** [l[:n]]: the first [n] elements, or all but the last [-n] when [n] is
    negative. *)
Definition slice_to {A} (n : Z) (l : list A) : list A :=
  if n <? 0 then firstn (Z.to_nat (Z.of_nat (length l) + n)) l
  else firstn (Z.to_nat n) l.

(** [sum(...)] over integers and over floats. *)
Definition sumZ (l : list Z) : Z := fold_left Z.add l 0.
Definition sumQ (l : list Q) : Q := fold_left Qplus l (0 # 1)%Q.

(** [len(l)] as a Python integer. *)
Definition len {A} (l : list A) : Z := Z.of_nat (length l).

End Num.
Import Num.

(** ** Time *)

(** One day in microseconds. *)
Definition day_us : Z := 86400000000.

(** [timedelta(days=n)]. *)
Definition timedelta_days (n : Z) : Z := n * day_us.

(** [(a - b).days]: a timedelta is kept normalised with its seconds and
    microseconds non-negative, so its [days] field is the floor. *)
Definition days_between (a b : Z) : Z := (a - b) / day_us.

(** [t.strftime('%Y-%m-%d')], as the day number of [t]. *)
Definition date_key (t : Z) : Z := t / day_us.

(** ** Strings and insertion-ordered dictionaries *)

(** The f-string [f"{username}:{question_id}"]. *)
Definition user_key (username question_id : string) : string :=
  username ++ ":" ++ question_id.

(** [key.startswith(f"{username}:")]. *)
Definition key_of_user (username key : string) : bool :=
  String.prefix (username ++ ":") key.

(** [key.split(':', 1)]: [None] when [key] has no colon (the list then has
    one element), otherwise the text before and the text after the first
    colon. *)
Fixpoint split_colon (key : string) : option (string * string) :=
  match key with
  | EmptyString => None
  | String c rest =>
      if Ascii.eqb c ":"%char then Some (EmptyString, rest)
      else match split_colon rest with
           | Some (a, b) => Some (String c a, b)
           | None => None
           end
  end.

(** [key.split(':', 1)[1]] on a key that passed [startswith(username + ':')],
    which then has a colon; the empty string stands for the [IndexError] that
    cannot happen there (see [split_colon_user_key]). *)
Definition question_id_of_key (key : string) : string :=
  match split_colon key with
  | Some (_, rest) => rest
  | None => EmptyString
  end.

Module Dict.
Section Dict.
Context {V : Type}.

Definition t := list (string * V).

(** [d.get(k)] / [d[k]]. *)
Fixpoint get (k : string) (d : t) : option V :=
  match d with
  | [] => None
  | (k', v) :: d' => if String.eqb k k' then Some v else get k d'
  end.

(** [k in d]. *)
Definition mem (k : string) (d : t) : bool :=
  match get k d with Some _ => true | None => false end.

(** [d[k] = v]: in place when the key is there, appended otherwise. *)
Fixpoint set (k : string) (v : V) (d : t) : t :=
  match d with
  | [] => [(k, v)]
  | (k', v') :: d' =>
      if String.eqb k k' then (k', v) :: d' else (k', v') :: set k v d'
  end.

Definition keys (d : t) : list string := map fst d.
Definition values (d : t) : list V := map snd d.

End Dict.
Arguments t : clear implicits.
End Dict.

(** ** The review record and the manager *)

(** One entry of [question_data]. *)
Record QuestionData := mkData {
  ease_factor : Q;
  repetition : Z;
  interval : Z;
  next_review : Z;
  total_attempts : Z;
  correct_attempts : Z;
  last_response_time : Q;
  avg_response_time : Q;
  created_date : Z
}.

(** The manager object, with what it leaves outside itself: the data file
    ([None] while it does not exist) and the lines it printed. *)
Record Manager := mkManager {
  question_data : Dict.t QuestionData;
  data_file : option (Dict.t QuestionData);
  printed : list string
}.

(** [SpacedRepetitionManager()] where no data file exists: [load_data]
    returns the empty dictionary. *)
Definition new_manager : Manager := mkManager [] None [].

(** What can be raised by the methods below. *)
Inductive exn := ZeroDivisionError | KeyError.

(** How a call ends; the manager is the object as the call left it, also
    when it raised. *)
Inductive result :=
| Returned (m : Manager)
| Raised (e : exn) (m : Manager).

(** Whether writing the data file works at this call; when it does not, the
    text of the exception. *)
Inductive io := WriteOk | WriteFails (e : string).

Module SpacedRepetitionManager.

(** [save_data]: any exception of the write is caught and reported on
    standard output. *)
Definition save_data (w : io) (m : Manager) : Manager :=
  match w with
  | WriteOk =>
      mkManager (question_data m) (Some (question_data m)) (printed m)
  | WriteFails e =>
      mkManager (question_data m) (data_file m)
        (printed m
           ++ [("Error saving spaced repetition data: " ++ e)%string])%list
  end.

(** The record of a question seen for the first time. *)
Definition fresh_data (now : Z) : QuestionData :=
  mkData 2.5 0 1 now 0 0 0 0 now.

Definition initialize_question (question_id username : string) (now : Z)
    (m : Manager) : Manager :=
  let key := user_key username question_id in
  if Dict.mem key (question_data m) then m
  else mkManager (Dict.set key (fresh_data now) (question_data m))
         (data_file m) (printed m).

(** The quality of an answer, from 0 to 5; [data] is the record after its
    counters were updated. *)
Definition quality_of (was_correct : bool) (response_time : Q)
    (data : QuestionData) : Z :=
  if was_correct then
    if Qle_bool response_time 5 then 5
    else if Qle_bool response_time 10 then 4
    else 3
  else
    let success_rate :=
      (inject_Z (correct_attempts data) / inject_Z (total_attempts data))%Q in
    if Qlt_le_dec 0.7 success_rate then 2
    else if Qlt_le_dec 0.3 success_rate then 1
    else 0.

(** [0.1 - (5 - quality) * (0.08 + (5 - quality) * 0.02)]. *)
Definition ease_delta (quality : Z) : Q :=
  (0.1 - inject_Z (5 - quality) * (0.08 + inject_Z (5 - quality) * 0.02))%Q.

(** The interval and the repetition count after an answer. *)
Definition sm2_step (was_correct : bool) (data : QuestionData) : Z * Z :=
  if was_correct then
    let i :=
      if repetition data =? 0 then 1
      else if repetition data =? 1 then 6
      else py_int (inject_Z (interval data) * ease_factor data) in
    (i, repetition data + 1)
  else (1, 0).

Definition with_data (key : string) (data : QuestionData) (m : Manager)
    : Manager :=
  mkManager (Dict.set key data (question_data m)) (data_file m) (printed m).

Definition update_question_performance (question_id username : string)
    (was_correct : bool) (response_time : Q) (now : Z) (w : io)
    (m : Manager) : result :=
  let key := user_key username question_id in
  let m :=
    if Dict.mem key (question_data m) then m
    else initialize_question question_id username now m in
  match Dict.get key (question_data m) with
  | None => Raised KeyError m
  | Some data =>
      (* basic stats and last response time *)
      let total := total_attempts data + 1 in
      let correct :=
        if was_correct then correct_attempts data + 1
        else correct_attempts data in
      let data1 :=
        mkData (ease_factor data) (repetition data) (interval data)
          (next_review data) total correct response_time
          (avg_response_time data) (created_date data) in
      if total =? 0 then Raised ZeroDivisionError (with_data key data1 m)
      else
        let total_time :=
          (avg_response_time data * inject_Z (total - 1) + response_time)%Q in
        let avg := (total_time / inject_Z total)%Q in
        (* SM-2 *)
        let '(new_interval, new_repetition) := sm2_step was_correct data in
        let data2 :=
          mkData (ease_factor data) new_repetition new_interval
            (next_review data) total correct response_time avg
            (created_date data) in
        (* ease factor *)
        let quality := quality_of was_correct response_time data2 in
        let new_ease := (ease_factor data + ease_delta quality)%Q in
        let data3 :=
          mkData (py_max 1.3 new_ease) new_repetition new_interval
            (now + timedelta_days new_interval) total correct response_time
            avg (created_date data) in
        Returned (save_data w (with_data key data3 m))
  end.

Definition get_questions_due_for_review (username : string)
    (all_question_ids : list string) (now : Z) (m : Manager) : list string :=
  filter
    (fun question_id =>
       match Dict.get (user_key username question_id) (question_data m) with
       | None => true
       | Some data => next_review data <=? now
       end)
    all_question_ids.

Definition get_question_priority (question_id username : string) (now : Z)
    (m : Manager) : Q :=
  match Dict.get (user_key username question_id) (question_data m) with
  | None => 100
  | Some data =>
      let days_overdue := days_between now (next_review data) in
      let overdue_factor := Z.max 0 days_overdue * 10 in
      let success_rate :=
        (inject_Z (correct_attempts data)
         / inject_Z (Z.max 1 (total_attempts data)))%Q in
      let difficulty_factor := ((1 - success_rate) * 50)%Q in
      let ease := ((3.0 - ease_factor data) * 20)%Q in
      let time_factor := Z.min days_overdue 30 in
      (inject_Z overdue_factor + difficulty_factor + ease
       + inject_Z time_factor)%Q
  end.

(** The dictionary [get_user_statistics] returns. *)
Record UserStatistics := mkStats {
  total_questions : Z;
  questions_mastered : Z;
  questions_learning : Z;
  questions_difficult : Z;
  average_ease : Q;
  total_reviews : Z
}.

(** [sum(1 for data in l if p(data))]. *)
Definition count {A} (p : A -> bool) (l : list A) : Z := len (filter p l).

(** The entries of the dictionary whose key starts with [username:]. *)
Definition user_questions (username : string) (m : Manager)
    : Dict.t QuestionData :=
  filter (fun kv => key_of_user username (fst kv)) (question_data m).

Definition get_user_statistics (username : string) (m : Manager)
    : UserStatistics :=
  let uq := Dict.values (user_questions username m) in
  match uq with
  | [] => mkStats 0 0 0 0 0 0
  | _ =>
      let total := len uq in
      let mastered :=
        count (fun data =>
                 (3 <=? repetition data)
                 && Qle_bool 2.5 (ease_factor data)) uq in
      let learning :=
        count (fun data =>
                 (1 <=? repetition data) && (repetition data <? 3)) uq in
      let difficult :=
        count (fun data => negb (Qle_bool 2.0 (ease_factor data))) uq in
      let avg_ease := (sumQ (map ease_factor uq) / inject_Z total)%Q in
      let reviews := sumZ (map total_attempts uq) in
      mkStats total mastered learning difficult (py_round avg_ease 2)
        reviews
  end.

(** The dictionary [get_review_schedule] builds: date keys in insertion
    order, each with its list of question ids. *)
Definition Schedule := list (Z * list string).

Definition schedule_mem (d : Z) (s : Schedule) : bool :=
  existsb (fun e => fst e =? d) s.

Definition schedule_get (d : Z) (s : Schedule) : option (list string) :=
  match find (fun e => fst e =? d) s with
  | Some e => Some (snd e)
  | None => None
  end.

(** [schedule[d] = []]. *)
Fixpoint schedule_new (d : Z) (s : Schedule) : Schedule :=
  match s with
  | [] => [(d, [])]
  | (d', l) :: s' =>
      if d' =? d then (d', []) :: s' else (d', l) :: schedule_new d s'
  end.

(** [schedule[d].append(q)], for a date that is a key. *)
Fixpoint schedule_append (d : Z) (q : string) (s : Schedule) : Schedule :=
  match s with
  | [] => []
  | (d', l) :: s' =>
      if d' =? d then (d', (l ++ [q])%list) :: s'
      else (d', l) :: schedule_append d q s'
  end.

(** [range(n)]. *)
Definition range (n : Z) : list Z := map Z.of_nat (seq 0 (Z.to_nat n)).

Definition get_review_schedule (username : string) (days : Z) (now : Z)
    (m : Manager) : Schedule :=
  let schedule :=
    fold_left
      (fun s i => schedule_new (date_key (now + timedelta_days i)) s)
      (range days) [] in
  fold_left
    (fun s kv =>
       let '(key, data) := kv in
       if key_of_user username key then
         if (now <=? next_review data)
            && (next_review data <=? now + timedelta_days days)
         then
           let d := date_key (next_review data) in
           if schedule_mem d s
           then schedule_append d (question_id_of_key key) s
           else s
         else s
       else s)
    (question_data m) schedule.

End SpacedRepetitionManager.
Import SpacedRepetitionManager.

(** ** Sorting the way [list.sort(reverse=True)] does *)

(** Python's sort is stable also with [reverse=True]: elements that compare
    equal keep their order.  [lt] is the [<] of the elements (or of their
    keys). *)
Section Sorting.
Context {A : Type} (lt : A -> A -> bool).

Fixpoint insert_desc (x : A) (l : list A) : list A :=
  match l with
  | [] => [x]
  | y :: l' => if lt x y then y :: insert_desc x l' else x :: l
  end.

Definition sort_desc (l : list A) : list A := fold_right insert_desc [] l.

End Sorting.

(** [a < b] on floats. *)
Definition Qlt_bool (a b : Q) : bool := negb (Qle_bool b a).

(** [str(n)] for an integer. *)
Definition str_of_Z (n : Z) : string :=
  DecimalString.NilZero.string_of_int (Z.to_int n).

(** ** The error analyzer *)

Module ErrorAnalyzer.

(** The dictionaries of this class are records; a field carries the key of
    the dictionary entry after a prefix for its record. *)

(** An entry of [most_difficult_questions]. *)
Record DifficultQuestion := mkDifficult {
  dq_question_id : string;
  dq_success_rate : Q;
  dq_attempts : Z;
  dq_difficulty_score : Q;
  dq_ease_factor : Q
}.

(** An entry of [slow_questions]. *)
Record SlowQuestion := mkSlow {
  sq_question_id : string;
  sq_avg_time : Q;
  sq_attempts : Z
}.

Record ErrorPatterns := mkPatterns {
  ep_questions_mastered : Z;
  ep_questions_struggling : Z;
  ep_questions_learning : Z;
  ep_avg_response_time : Q;
  ep_slow_questions : list SlowQuestion
}.

(** The dictionary [get_user_error_summary] returns.  The summary of a user
    without data has no [total_attempts] and no [error_patterns] entry, the
    other one has no [topics_with_most_errors] entry. *)
Record ErrorSummary := mkSummary {
  es_total_questions_attempted : Z;
  es_total_attempts : option Z;
  es_total_errors : Z;
  es_error_rate : Q;
  es_most_difficult_questions : list DifficultQuestion;
  es_topics_with_most_errors : option (list string);
  es_error_patterns : option ErrorPatterns;
  es_improvement_suggestions : list string
}.

(** The loop that filters the data of one user, keyed by question id. *)
Definition user_data_of (username : string) (m : Manager)
    : Dict.t QuestionData :=
  fold_left
    (fun ud kv =>
       let '(key, data) := kv in
       if key_of_user username key
       then Dict.set (question_id_of_key key) data ud
       else ud)
    (question_data m) [].

Definition _analyze_error_patterns (user_data : Dict.t QuestionData)
    : ErrorPatterns :=
  let classify (data : QuestionData) : Z :=
    let success_rate :=
      (inject_Z (correct_attempts data)
       / inject_Z (Z.max 1 (total_attempts data)))%Q
    in
    if Qle_bool 0.8 success_rate && (3 <=? repetition data) then 0
    else if Qlt_bool success_rate 0.5 then 1
    else 2 in
  let vals := Dict.values user_data in
  let timed :=
    filter (fun kv => Qlt_bool 0 (avg_response_time
                                    (snd kv))) user_data in
  let total_response_time :=
    sumQ (map (fun kv => avg_response_time (snd kv))
            timed) in
  let response_count := len timed in
  let slow :=
    map (fun kv =>
           mkSlow (fst kv)
             (py_round (avg_response_time (snd kv)) 1)
             (total_attempts (snd kv)))
      (filter (fun kv => Qlt_bool 20 (avg_response_time
                                        (snd kv))) timed) in
  mkPatterns
    (count (fun d => classify d =? 0) vals)
    (count (fun d => classify d =? 1) vals)
    (count (fun d => classify d =? 2) vals)
    (py_round (total_response_time / inject_Z (Z.max 1 response_count)) 1)
    (slice_to 5
       (sort_desc (fun a b => Qlt_bool (sq_avg_time a) (sq_avg_time b))
          slow)).

Definition _generate_improvement_suggestions (error_rate : Q)
    (difficult_questions : list DifficultQuestion)
    (user_data : Dict.t QuestionData) : list string :=
  let s1 :=
    if Qlt_bool 50 error_rate then
      ["📚 Your error rate is quite high. Consider reviewing basic concepts before attempting quizzes."]
    else if Qlt_bool 30 error_rate then
      ["🎯 Focus on your weak areas using the 'Focus on Mistakes' mode."]
    else if Qlt_bool 15 error_rate then
      ["✨ You're doing well! Use 'Smart Review' to reinforce your learning."]
    else
      ["🌟 Excellent performance! Try 'Mixed Review' to maintain your knowledge."]
  in
  let s2 :=
    if 5 <? len difficult_questions then
      [("🔍 You have " ++ str_of_Z (len difficult_questions)
        ++ " challenging questions. "
        ++ "Use spaced repetition to gradually master them.")%string]
    else [] in
  let avg_times :=
    filter (Qlt_bool 0)
      (map avg_response_time
         (Dict.values user_data)) in
  let s3 :=
    match avg_times with
    | [] => []
    | _ =>
        let avg_time := (sumQ avg_times / inject_Z (len avg_times))%Q in
        if Qlt_bool 15 avg_time then
          ["⏱️ Try to improve your response time by reviewing concepts more frequently."]
        else if Qlt_bool avg_time 5 then
          ["🚀 Great response times! You might be ready for more advanced topics."]
        else []
    end in
  let very_easy_questions :=
    count (fun data =>
             Qlt_bool 2.8 (ease_factor data) && (2 <=? repetition data))
      (Dict.values user_data) in
  let s4 :=
    if Qlt_bool (inject_Z (len user_data) * 0.7)
         (inject_Z very_easy_questions)
    then ["🎓 You've mastered most questions! Consider exploring new topics."]
    else [] in
  slice_to 4 (s1 ++ s2 ++ s3 ++ s4)%list.

Definition get_user_error_summary (username : string) (m : Manager)
    : ErrorSummary :=
  let user_data := user_data_of username m in
  match user_data with
  | [] => mkSummary 0 None 0 0 [] (Some []) None []
  | _ =>
      let vals := Dict.values user_data in
      let total := sumZ (map total_attempts vals) in
      let errors :=
        sumZ (map (fun data =>
                     total_attempts data
                     - correct_attempts data) vals) in
      let rate :=
        if 0 <? total then (inject_Z errors / inject_Z total * 100)%Q
        else 0%Q in
      let difficult_questions :=
        flat_map
          (fun kv =>
             let '(question_id, data) := kv in
             if 2 <=? total_attempts data then
               let success_rate :=
                 (inject_Z (correct_attempts data)
                  / inject_Z (total_attempts data))%Q
               in
               let difficulty_score :=
                 ((1 - success_rate) * 100
                  + (3.0 - ease_factor data) * 20)%Q in
               if Qlt_bool success_rate 0.7 then
                 [mkDifficult question_id (py_round (success_rate * 100) 1)
                    (total_attempts data)
                    (py_round difficulty_score 1)
                    (py_round (ease_factor data) 2)]
               else []
             else [])
          user_data in
      let sorted :=
        sort_desc
          (fun a b => Qlt_bool (dq_difficulty_score a) (dq_difficulty_score b))
          difficult_questions in
      mkSummary (len user_data) (Some total) errors (py_round rate 1)
        (slice_to 10 sorted) None
        (Some (_analyze_error_patterns user_data))
        (_generate_improvement_suggestions rate sorted user_data)
  end.

End ErrorAnalyzer.

(** ** The quiz loader *)

(** A [Question] object.  [oid] is the identity of the object: the class
    defines no [__eq__], so [q in l] compares identities.  The timing fields,
    which only [ask] and [check_user_answer] touch, are left out. *)
Record Question := mkQuestion {
  oid : nat;
  question : string;
  answers : list string;
  correct_answer : Z;
  hints : Dict.t string;
  topic : string
}.

Module QuizLoader.
Section QuizLoader.

(** [hashlib.md5(s.encode()).hexdigest()[:12]]. *)
Variable md5_hex12 : string -> string.

(** The state of the [random] module, with [random.sample(l, k)] and
    [random.shuffle(l)] as functions of it. *)
Variable rng : Type.
Variable sample : rng -> list Question -> Z -> list Question * rng.
Variable shuffle : rng -> list Question -> list Question * rng.

Definition get_id (q : Question) : string :=
  md5_hex12 (topic q ++ ":" ++ question q).

(** [q in l]. *)
Definition contains (l : list Question) (q : Question) : bool :=
  existsb (fun q' => Nat.eqb (oid q) (oid q')) l.

(** [{q.get_id(): q for q in all_questions}]. *)
Definition question_map_of (all_questions : list Question)
    : Dict.t Question :=
  fold_left (fun d q => Dict.set (get_id q) q d) all_questions [].

(** [<] on the tuples [(score, q_id)]. *)
Definition tuple_lt (a b : Q * string) : bool :=
  Qlt_bool (fst a) (fst b)
  || (Qeq_bool (fst a) (fst b) && String.ltb (snd a) (snd b)).

(** The loop that resolves the first [max_questions] ids of a ranking. *)
Definition take_ranked (question_map : Dict.t Question) (max_questions : Z)
    (ranked : list (Q * string)) : list Question :=
  flat_map
    (fun e => match Dict.get (snd e) question_map with
              | Some q => [q]
              | None => []
              end)
    (slice_to max_questions ranked).

(** "If we need more questions, add some random ones". *)
Definition random_fill (all_questions selected : list Question)
    (max_questions : Z) (g : rng) : list Question * rng :=
  if len selected <? max_questions then
    let remaining :=
      filter (fun q => negb (contains selected q)) all_questions in
    let remaining_needed := max_questions - len selected in
    match remaining with
    | [] => (selected, g)
    | _ =>
        let '(random_questions, g') :=
          sample g remaining (Z.min remaining_needed (len remaining)) in
        ((selected ++ random_questions)%list, g')
    end
  else (selected, g).

(** The due questions of a pool, by priority, highest first. *)
Definition due_ranking (username : string) (all_questions : list Question)
    (now : Z) (m : Manager) : list (Q * string) :=
  let all_question_ids := map get_id all_questions in
  let due_questions :=
    get_questions_due_for_review username all_question_ids now m in
  sort_desc tuple_lt
    (map (fun q_id => (get_question_priority q_id username now m, q_id))
       due_questions).

(** [all_questions] is what [load_questions_from_file(file_path)]
    returned. *)
Definition get_spaced_repetition_quiz (username : string)
    (all_questions : list Question) (max_questions : Z) (now : Z)
    (g : rng) (m : Manager) : list Question * rng * Manager :=
  match all_questions with
  | [] => ([], g, m)
  | _ =>
      let m :=
        fold_left
          (fun m q => initialize_question (get_id q) username now m)
          all_questions m in
      let selected :=
        take_ranked (question_map_of all_questions) max_questions
          (due_ranking username all_questions now m) in
      let '(selected, g) :=
        random_fill all_questions selected max_questions g in
      let '(selected, g) := shuffle g selected in
      (selected, g, m)
  end.

(** [all_questions] is what was loaded from [file_path], or from every
    topic when [file_path] is [None]. *)
Definition get_difficult_questions_quiz (username : string)
    (all_questions : list Question) (max_questions : Z)
    (g : rng) (m : Manager) : list Question * rng :=
  match all_questions with
  | [] => ([], g)
  | _ =>
      let difficult_questions :=
        flat_map
          (fun q =>
             match Dict.get (user_key username (get_id q))
                     (question_data m) with
             | Some data =>
                 let success_rate :=
                   (inject_Z (correct_attempts data)
                    / inject_Z (Z.max 1 (total_attempts data)))%Q in
                 let difficulty_score :=
                   ((1 - success_rate) * 100
                    + (3.0 - ease_factor data) * 20)%Q in
                 if 0 <? total_attempts data
                 then [(difficulty_score, get_id q)]
                 else []
             | None => []
             end)
          all_questions in
      let selected :=
        take_ranked (question_map_of all_questions) max_questions
          (sort_desc tuple_lt difficult_questions) in
      let '(selected, g) :=
        random_fill all_questions selected max_questions g in
      shuffle g selected
  end.

(** "Remove duplicates while preserving order": the unique questions and
    the ids seen. *)
Definition dedup (selected : list Question) : list Question * list string :=
  fold_left
    (fun acc q =>
       let '(unique_questions, seen) := acc in
       if existsb (String.eqb (get_id q)) seen then acc
       else ((unique_questions ++ [q])%list, (seen ++ [get_id q])%list))
    selected ([], []).

(** [all_questions] is what loading every topic returns, here and in the
    nested call of [get_difficult_questions_quiz]. *)
Definition get_mixed_review_quiz (username : string)
    (all_questions : list Question) (max_questions : Z) (now : Z)
    (g : rng) (m : Manager) : list Question * rng :=
  match all_questions with
  | [] => ([], g)
  | _ =>
      let sr_count := py_int (inject_Z max_questions * 0.6) in
      let difficult_count := max_questions - sr_count in
      let sr_questions :=
        take_ranked (question_map_of all_questions) sr_count
          (due_ranking username all_questions now m) in
      let '(difficult_questions, g) :=
        get_difficult_questions_quiz username all_questions difficult_count
          g m in
      let selected_questions :=
        (sr_questions ++ difficult_questions)%list in
      let '(unique_questions, seen) := dedup selected_questions in
      let '(unique_questions, g) :=
        if len unique_questions <? max_questions then
          let remaining :=
            filter (fun q => negb (existsb (String.eqb (get_id q)) seen))
              all_questions in
          let needed := max_questions - len unique_questions in
          match remaining with
          | [] => (unique_questions, g)
          | _ =>
              let '(additional, g') :=
                sample g remaining (Z.min needed (len remaining)) in
              ((unique_questions ++ additional)%list, g')
          end
        else (unique_questions, g) in
      let '(unique_questions, g) := shuffle g unique_questions in
      (slice_to max_questions unique_questions, g)
  end.

End QuizLoader.
End QuizLoader.

(** ** Sequences of calls *)

(** A call of one of the two methods that write to [question_data], with
    the clock reading and, for an update, the fate of the write. *)
Inductive call :=
| Initialize (question_id username : string) (now : Z)
| Update (question_id username : string) (was_correct : bool)
    (response_time : Q) (now : Z) (w : io).

Definition run_call (c : call) (m : Manager) : result :=
  match c with
  | Initialize question_id username now =>
      Returned (initialize_question question_id username now m)
  | Update question_id username was_correct response_time now w =>
      update_question_performance question_id username was_correct
        response_time now w m
  end.

(** The calls one after the other; an exception ends the sequence. *)
Fixpoint run (cs : list call) (m : Manager) : result :=
  match cs with
  | [] => Returned m
  | c :: cs' =>
      match run_call c m with
      | Returned m' => run cs' m'
      | Raised e m' => Raised e m'
      end
  end.

(** The managers a program can build from an empty data file. *)
Definition reachable (m : Manager) : Prop :=
  exists cs, run cs new_manager = Returned m.

(** The invariants the data model gives a record. *)
Record record_ok (d : QuestionData) : Prop := mkOk {
  ok_correct : 0 <= correct_attempts d <= total_attempts d;
  ok_ease : (1.3 <= ease_factor d)%Q;
  ok_interval : 1 <= interval d;
  ok_repetition : 0 <= repetition d
}.

Definition manager_ok (m : Manager) : Prop :=
  forall key d, Dict.get key (question_data m) = Some d -> record_ok d.

(** ** Statements of the specification, after its words, and what the
    proofs measure the code with *)

(** [answered was_correct response_time now data data']: [data'] is [data]
    after an answer, field by field as the method computes it. *)
Definition answered (was_correct : bool) (response_time : Q) (now : Z)
    (data data' : QuestionData) : Prop :=
  total_attempts data' = total_attempts data + 1
  /\ correct_attempts data'
     = (if was_correct then correct_attempts data + 1
        else correct_attempts data)
  /\ last_response_time data' = response_time
  /\ avg_response_time data'
     = ((avg_response_time data * inject_Z (total_attempts data' - 1)
         + response_time) / inject_Z (total_attempts data'))%Q
  /\ (interval data', repetition data') = sm2_step was_correct data
  /\ ease_factor data'
     = py_max 1.3
         (ease_factor data
          + ease_delta (quality_of was_correct response_time data'))
  /\ next_review data' = now + timedelta_days (interval data')
  /\ created_date data' = created_date data.

(** The priority of an item that has a record, in the words of the
    specification: [max(0, days_overdue)*10 + (1 - success_rate)*50 +
    (3.0 - ease_factor)*20 + min(max(0, days_overdue), 30)] with
    [days_overdue = floor(days(now - next_review))]. *)
Definition spec_priority (now : Z) (data : QuestionData) : Q :=
  let days_overdue :=
    Qfloor (inject_Z (now - next_review data) / inject_Z day_us) in
  let success_rate :=
    (inject_Z (correct_attempts data)
     / inject_Z (Z.max 1 (total_attempts data)))%Q in
  (inject_Z (Z.max 0 days_overdue) * 10 + (1 - success_rate) * 50
   + (3.0 - ease_factor data) * 20
   + inject_Z (Z.min (Z.max 0 days_overdue) 30))%Q.

(** The same with [min(days_overdue, 30)] as its last term. *)
Definition uncapped_below_priority (now : Z) (data : QuestionData) : Q :=
  let days_overdue :=
    Qfloor (inject_Z (now - next_review data) / inject_Z day_us) in
  let success_rate :=
    (inject_Z (correct_attempts data)
     / inject_Z (Z.max 1 (total_attempts data)))%Q in
  (inject_Z (Z.max 0 days_overdue) * 10 + (1 - success_rate) * 50
   + (3.0 - ease_factor data) * 20
   + inject_Z (Z.min days_overdue 30))%Q.

(** "Priority returns exactly 100.0 without a record and the formula of the
    specification with one." *)
Definition priority_as_specified (qid user : string) (now : Z) (m : Manager)
    : Prop :=
  match Dict.get (user_key user qid) (question_data m) with
  | None => (get_question_priority qid user now m == 100)%Q
  | Some data =>
      (get_question_priority qid user now m == spec_priority now data)%Q
  end.



(** "Each of the three selections is empty when the pool is empty and
    whenever [max_questions <= 0]." *)
Definition empty_when_nothing_asked (md5_hex12 : string -> string)
    (rng : Type) (sample : rng -> list Question -> Z -> list Question * rng)
    (shuffle : rng -> list Question -> list Question * rng)
    (username : string) (all_questions : list Question) (max_questions : Z)
    (now : Z) (g : rng) (m : Manager) : Prop :=
  all_questions = [] \/ max_questions <= 0 ->
  fst (fst (QuizLoader.get_spaced_repetition_quiz md5_hex12 rng sample
              shuffle username all_questions max_questions now g m)) = []
  /\ fst (QuizLoader.get_difficult_questions_quiz md5_hex12 rng sample
            shuffle username all_questions max_questions g m) = []
  /\ fst (QuizLoader.get_mixed_review_quiz md5_hex12 rng sample shuffle
            username all_questions max_questions now g m) = [].

(** "The schedule has a bucket for every calendar date in the window
    [[now, now + horizon_days]], and every record of the user whose next
    review falls in the window is in the bucket of its date." *)
Definition schedule_as_specified (user : string) (days now : Z) (m : Manager)
    : Prop :=
  0 < days ->
  let s := get_review_schedule user days now m in
  (forall d,
      date_key now <= d <= date_key (now + timedelta_days days) ->
      schedule_mem d s = true)
  /\ (forall item data,
        Dict.get (user_key user item) (question_data m) = Some data ->
        now <= next_review data <= now + timedelta_days days ->
        exists l,
          schedule_get (date_key (next_review data)) s = Some l /\ In item l).

(** A user name without a colon. *)
Definition colon_free (s : string) : Prop := split_colon s = None.

(** The ids the loop of [get_review_schedule] appends to the bucket of date
    [d], in the order of the dictionary. *)
Definition scheduled_on (user : string) (days now d : Z)
    (kvs : Dict.t QuestionData) : list string :=
  map (fun kv => question_id_of_key (fst kv))
    (filter
       (fun kv =>
          key_of_user user (fst kv)
          && ((now <=? next_review (snd kv))
              && (next_review (snd kv) <=? now + timedelta_days days))
          && (date_key (next_review (snd kv)) =? d))
       kvs).


(** ** Managers, questions and a source of randomness to evaluate on *)

(** The manager a call leaves. *)
Definition after (r : result) : Manager :=
  match r with Returned m => m | Raised _ m => m end.


(** Ann answered item X once, correctly and in three seconds, at time 0:
    the next review is one day later. *)
Definition answered_once : Manager :=
  after (update_question_performance "X" "ann" true 3 0 WriteOk new_manager).

(** User [a] answered item [b:c] once. *)
Definition a_answered : Manager :=
  after (update_question_performance "b:c" "a" true 3 0 WriteOk new_manager).

(** Only user [a:b] used the application: one correct answer to an item. *)
Definition only_ab_answered : Manager :=
  after (update_question_performance "c0ffee" "a:b" true 3 0 WriteOk
           new_manager).

(** A pool of three questions. *)
Definition q1 : Question :=
  mkQuestion 1 "What is Python?" ["1. Language"; "2. Snake"] 1
    [("correct", "Correct!"); ("fail", "Wrong!")] "Python Basics".
Definition q2 : Question :=
  mkQuestion 2 "What is a list?" ["1. Sequence"; "2. Number"] 1
    [("correct", "Correct!"); ("fail", "Wrong!")] "Python Basics".
Definition q3 : Question :=
  mkQuestion 3 "What is a dict?" ["1. Mapping"; "2. Loop"] 1
    [("correct", "Correct!"); ("fail", "Wrong!")] "Python Basics".

(** A stand-in for the digest that keeps the ids of the three questions
    apart, as md5 does. *)
Definition plain_id (s : string) : string := s.

(** One behaviour of the [random] module: [sample] takes the first [k]
    elements and [shuffle] leaves the order. *)
Definition first_sample (g : unit) (l : list Question) (k : Z)
    : list Question * unit := (firstn (Z.to_nat k) l, g).
Definition no_shuffle (g : unit) (l : list Question) : list Question * unit :=
  (l, g).

(** Ann answered the three questions at time 0, the second one wrongly. *)
Definition practised : Manager :=
  after (run [Update (QuizLoader.get_id plain_id q1) "ann" true 3 0 WriteOk;
              Update (QuizLoader.get_id plain_id q2) "ann" false 12 0 WriteOk;
              Update (QuizLoader.get_id plain_id q3) "ann" true 7 0 WriteOk]
           new_manager).

(** ** More of the manager and of the analyzer *)



(** The dictionary [get_learning_streak] returns: two entries for a user
    without data, four otherwise. *)
Inductive LearningStreak :=
| NoStreak (streak : Z) (consistency : string)
| Streak (total_questions : Z) (avg_repetitions : Q) (consistency : string)
    (total_attempts : Z).

(** The loop of [get_learning_streak]: the data of one user under their
    full keys. *)
Definition user_data_by_key (username : string) (m : Manager)
    : Dict.t QuestionData :=
  fold_left
    (fun ud kv =>
       let '(key, data) := kv in
       if key_of_user username key then Dict.set key data ud else ud)
    (question_data m) [].

Definition get_learning_streak (username : string) (m : Manager)
    : LearningStreak :=
  let user_data := user_data_by_key username m in
  match user_data with
  | [] => NoStreak 0 "No data"
  | _ =>
      let vals := Dict.values user_data in
      let total_repetitions := sumZ (map repetition vals) in
      let avg_repetitions :=
        (inject_Z total_repetitions / inject_Z (len user_data))%Q in
      let consistency :=
        if Qle_bool 3 avg_repetitions then "Excellent"
        else if Qle_bool 2 avg_repetitions then "Good"
        else if Qle_bool 1 avg_repetitions then "Fair"
        else "Needs Improvement" in
      Streak (len user_data) (py_round avg_repetitions 1) consistency
        (sumZ (map total_attempts vals))
  end.

Definition get_progress_recommendations (username : string) (m : Manager)
    : list string :=
  let error_summary := ErrorAnalyzer.get_user_error_summary username m in
  if ErrorAnalyzer.es_total_questions_attempted error_summary =? 0 then
    ["🚀 Start with a regular quiz to establish your baseline performance!"]
  else
    let base :=
      if Qlt_bool 40 (ErrorAnalyzer.es_error_rate error_summary) then
        ["📖 Review fundamental concepts before taking more quizzes";
         "🎯 Use 'Focus on Mistakes' mode to target your weak areas";
         "⏰ Take your time - accuracy is more important than speed"]
      else if Qlt_bool 20 (ErrorAnalyzer.es_error_rate error_summary) then
        ["🧠 Use 'Smart Review' to leverage spaced repetition";
         "🔄 Try 'Mixed Review' for comprehensive practice";
         "📊 Monitor your progress in the Learning Progress section"]
      else
        ["🌟 Excellent work! Consider exploring new topics";
         "🔄 Use 'Mixed Review' to maintain your knowledge";
         "🎓 You might be ready for more advanced questions"] in
    let difficult :=
      ErrorAnalyzer.es_most_difficult_questions error_summary in
    let specific :=
      if 3 <? len difficult then
        [("🎯 Focus on your " ++ str_of_Z (len difficult) ++ " "
          ++ "most difficult questions using spaced repetition")%string]
      else [] in
    slice_to 5 (base ++ specific)%list.

(** * Properties *)

(** ** Dictionaries *)

Section DictFacts.
Context {V : Type}.
Implicit Types (d : Dict.t V) (k : string) (v : V).

Lemma get_set_same k v d : Dict.get k (Dict.set k v d) = Some v.
Proof.
  induction d as [|[k' v'] d IH]; simpl.
  - now rewrite String.eqb_refl.
  - destruct (String.eqb k k') eqn:E; simpl; rewrite E; auto.
Qed.

Lemma get_set_other k k' v d :
  k <> k' -> Dict.get k' (Dict.set k v d) = Dict.get k' d.
Proof.
  intros Hne. induction d as [|[k0 v0] d IH]; simpl.
  - destruct (String.eqb k' k) eqn:E; auto.
    apply String.eqb_eq in E. congruence.
  - destruct (String.eqb k k0) eqn:E; simpl.
    + apply String.eqb_eq in E. subst k0.
      destruct (String.eqb k' k) eqn:E'; auto.
      apply String.eqb_eq in E'. congruence.
    + now rewrite IH.
Qed.

Lemma get_In k v d : Dict.get k d = Some v -> In (k, v) d.
Proof.
  induction d as [|[k' v'] d IH]; simpl; [discriminate|].
  destruct (String.eqb k k') eqn:E.
  - apply String.eqb_eq in E. intros [= ->]. left. now subst.
  - auto.
Qed.

Lemma mem_get_none k d : Dict.mem k d = false -> Dict.get k d = None.
Proof. unfold Dict.mem. now destruct (Dict.get k d). Qed.

Lemma mem_get_some k d :
  Dict.mem k d = true -> exists v, Dict.get k d = Some v.
Proof. unfold Dict.mem. destruct (Dict.get k d); eauto. discriminate. Qed.

End DictFacts.

(** ** Truncation and floor *)

Lemma py_int_floor (x : Q) : (0 <= x)%Q -> py_int x = Qfloor x.
Proof.
  destruct x as [n p]. unfold Qle, py_int, Qfloor. simpl. intros H.
  apply Z.quot_div_nonneg; lia.
Qed.

Lemma py_max_lower (a b : Q) : (a <= py_max a b)%Q.
Proof.
  unfold py_max. destruct (Qlt_le_dec a b) as [H|H].
  - now apply Qlt_le_weak.
  - apply Qle_refl.
Qed.


(** ** What one update does to a record *)

Lemma update_existing qid user wc rt now m data :
  Dict.get (user_key user qid) (question_data m) = Some data ->
  total_attempts data + 1 <> 0 ->
  exists data',
    answered wc rt now data data'
    /\ forall w,
         update_question_performance qid user wc rt now w m
         = Returned (save_data w (with_data (user_key user qid) data' m)).
Proof.
  intros Hget Hnz. unfold update_question_performance.
  assert (Hmem : Dict.mem (user_key user qid) (question_data m) = true)
    by (unfold Dict.mem; now rewrite Hget).
  rewrite Hmem, Hget.
  destruct (total_attempts data + 1 =? 0) eqn:E; [lia|].
  destruct (sm2_step wc data) as [i r] eqn:Es.
  eexists. split; [|reflexivity].
  unfold answered; simpl. repeat split; auto.
Qed.

Lemma update_absent qid user wc rt now w m :
  Dict.get (user_key user qid) (question_data m) = None ->
  update_question_performance qid user wc rt now w m
  = update_question_performance qid user wc rt now w
      (initialize_question qid user now m)
  /\ Dict.get (user_key user qid)
       (question_data (initialize_question qid user now m))
     = Some (fresh_data now).
Proof.
  intros Hget.
  assert (Hmem : Dict.mem (user_key user qid) (question_data m) = false)
    by (unfold Dict.mem; now rewrite Hget).
  assert (Hinit : Dict.get (user_key user qid)
                    (question_data (initialize_question qid user now m))
                  = Some (fresh_data now)).
  { unfold initialize_question. rewrite Hmem. simpl. apply get_set_same. }
  split; [|exact Hinit].
  unfold update_question_performance at 1 2. rewrite Hmem.
  assert (Hmem' : Dict.mem (user_key user qid)
                    (question_data (initialize_question qid user now m))
                  = true)
    by (unfold Dict.mem; now rewrite Hinit).
  now rewrite Hmem'.
Qed.

Lemma question_data_save w m :
  question_data (save_data w m) = question_data m.
Proof. now destruct w. Qed.

Lemma get_saved_same w key data m :
  Dict.get key (question_data (save_data w (with_data key data m)))
  = Some data.
Proof. rewrite question_data_save. simpl. apply get_set_same. Qed.

Lemma get_saved_other w key key' data m :
  key <> key' ->
  Dict.get key' (question_data (save_data w (with_data key data m)))
  = Dict.get key' (question_data m).
Proof. intros. rewrite question_data_save. simpl. now apply get_set_other. Qed.

(** ** The invariants are kept *)

Lemma fresh_data_ok now : record_ok (fresh_data now).
Proof. constructor; simpl; try lia. unfold Qle; simpl; lia. Qed.

Lemma sm2_interval_ok wc data :
  record_ok data -> 1 <= fst (sm2_step wc data) /\ 0 <= snd (sm2_step wc data).
Proof.
  intros [_ He Hi Hr]. unfold sm2_step. destruct wc; simpl; [|lia].
  split; [|lia].
  destruct (repetition data =? 0); [lia|].
  destruct (repetition data =? 1); [lia|].
  assert (H1 : (1 <= inject_Z (interval data) * ease_factor data)%Q).
  { assert (Hq : (1 <= inject_Z (interval data))%Q)
      by (rewrite <- (Zle_Qle 1); exact Hi).
    assert (He' : (1 <= ease_factor data)%Q)
      by (eapply Qle_trans; [|exact He]; unfold Qle; simpl; lia).
    nra. }
  rewrite py_int_floor by lra.
  change 1 with (Qfloor 1). now apply Qfloor_resp_le.
Qed.

Lemma answered_ok wc rt now data data' :
  record_ok data -> answered wc rt now data data' -> record_ok data'.
Proof.
  intros Hok (Ht & Hc & _ & _ & Hs & He & _ & _).
  pose proof (sm2_interval_ok wc data Hok) as [Hi Hr].
  rewrite <- Hs in Hi, Hr. simpl in Hi, Hr.
  destruct Hok as [Hca _ _ _].
  constructor; auto.
  - rewrite Hc, Ht. destruct wc; lia.
  - rewrite He. apply py_max_lower.
Qed.

Lemma initialize_question_ok qid user now m :
  manager_ok m -> manager_ok (initialize_question qid user now m).
Proof.
  intros Hok key d. unfold initialize_question.
  destruct (Dict.mem (user_key user qid) (question_data m)); [apply Hok|].
  simpl. destruct (String.eqb_spec (user_key user qid) key) as [->|Hne].
  - rewrite get_set_same. intros [= <-]. apply fresh_data_ok.
  - rewrite get_set_other by assumption. apply Hok.
Qed.

(** An update of a well-formed manager returns; [data] is the record the
    answer applies to, the one that was there or the fresh one. *)
Lemma update_returns qid user wc rt now m :
  manager_ok m ->
  exists m0 data data',
    m0 = initialize_question qid user now m
    /\ Dict.get (user_key user qid) (question_data m0) = Some data
    /\ record_ok data
    /\ answered wc rt now data data'
    /\ forall w,
         update_question_performance qid user wc rt now w m
         = Returned (save_data w (with_data (user_key user qid) data' m0)).
Proof.
  intros Hok.
  destruct (Dict.get (user_key user qid) (question_data m)) as [data|] eqn:Hget.
  - destruct (update_existing qid user wc rt now m data Hget)
      as (data' & Ha & Hu).
    { pose proof (ok_correct _ (Hok _ _ Hget)). lia. }
    exists m, data, data'. split; [|eauto].
    unfold initialize_question, Dict.mem. now rewrite Hget.
  - destruct (update_absent qid user wc rt now WriteOk m Hget) as [_ Hg].
    destruct (update_existing qid user wc rt now _ _ Hg) as (data' & Ha & Hu').
    { simpl. lia. }
    exists (initialize_question qid user now m), (fresh_data now), data'.
    repeat (split; [now auto using fresh_data_ok|]).
    intros w. rewrite <- Hu'. now apply update_absent.
Qed.

Lemma update_ok qid user wc rt now w m :
  manager_ok m ->
  exists m',
    update_question_performance qid user wc rt now w m = Returned m'
    /\ manager_ok m'.
Proof.
  intros Hok.
  destruct (update_returns qid user wc rt now m Hok)
    as (m0 & data & data' & Hm0 & Hget & Hd & Ha & Hu).
  eexists. split; [apply Hu|].
  assert (Hok0 : manager_ok m0) by (subst m0; now apply initialize_question_ok).
  intros key d.
  destruct (String.eqb_spec (user_key user qid) key) as [<-|Hne].
  - rewrite get_saved_same. intros [= <-].
    eapply answered_ok; eauto.
  - rewrite get_saved_other by assumption. apply Hok0.
Qed.

Lemma new_manager_ok : manager_ok new_manager.
Proof. intros key d. simpl. discriminate. Qed.

Lemma run_ok cs : forall m,
  manager_ok m -> exists m', run cs m = Returned m' /\ manager_ok m'.
Proof.
  induction cs as [|c cs IH]; intros m Hok; simpl.
  - eauto.
  - destruct c as [qid user now|qid user wc rt now w]; simpl.
    + apply IH. now apply initialize_question_ok.
    + destruct (update_ok qid user wc rt now w m Hok) as (m' & -> & Hok').
      now apply IH.
Qed.

Lemma reachable_ok m : reachable m -> manager_ok m.
Proof.
  intros [cs Hrun].
  destruct (run_ok cs new_manager new_manager_ok) as (m' & Hrun' & Hok).
  rewrite Hrun in Hrun'. now injection Hrun' as <-.
Qed.

(** ** The update rule *)










(** ** Priority *)

Lemma days_between_floor (a b : Z) :
  days_between a b = Qfloor (inject_Z (a - b) / inject_Z day_us).
Proof. unfold days_between. apply Zdiv_Qdiv. Qed.

(** C3, as stated, fails: one day before its next review the record of
    [answered_once] has [days_overdue = -1] and priority 7, where the
    formula of the specification gives 8. *)
Lemma priority_below_specified :
  ~ priority_as_specified "X" "ann" 0 answered_once.
Proof. vm_compute. discriminate. Qed.

(** C3, amended.  Without a record the priority is 100; with one it is
    [max(0, days_overdue)*10 + (1 - success_rate)*50 + (3.0 - ease_factor)*20
    + min(days_overdue, 30)]: the last term is not cut off at zero. *)
Theorem priority_formula qid user now m :
  (get_question_priority qid user now m
   == match Dict.get (user_key user qid) (question_data m) with
      | None => 100
      | Some data => uncapped_below_priority now data
      end)%Q.
Proof.
  unfold get_question_priority, uncapped_below_priority.
  destruct (Dict.get (user_key user qid) (question_data m)) as [data|];
    [|reflexivity].
  rewrite days_between_floor.
  set (d := Qfloor _). set (sr := (_ / _)%Q).
  rewrite inject_Z_mult. reflexivity.
Qed.

(** For a record that is due the two formulas agree. *)
Lemma priority_of_due_record qid user now m data :
  Dict.get (user_key user qid) (question_data m) = Some data ->
  next_review data <= now ->
  (get_question_priority qid user now m == spec_priority now data)%Q.
Proof.
  intros Hget Hdue.
  unfold get_question_priority, spec_priority. rewrite Hget.
  rewrite days_between_floor.
  assert (Hd : 0 <= Qfloor (inject_Z (now - next_review data)
                            / inject_Z day_us)).
  { rewrite <- Zdiv_Qdiv. apply Z.div_pos; [lia|reflexivity]. }
  set (d := Qfloor _) in *. set (sr := (_ / _)%Q).
  rewrite (Z.max_r 0 d) by lia.
  rewrite inject_Z_mult. reflexivity.
Qed.

(** ** Input validation and failed writes *)








(** ** Keys built by concatenation *)

Lemma prefix_app (s t : string) : String.prefix s (s ++ t) = true.
Proof.
  induction s as [|c s IH]; simpl.
  - now destruct t.
  - destruct (ascii_dec c c); [exact IH|congruence].
Qed.

Lemma append_assoc (s t r : string) : ((s ++ t) ++ r = s ++ (t ++ r))%string.
Proof. induction s as [|c s IH]; simpl; [reflexivity|now rewrite IH]. Qed.

(** The keys of a user whose name continues [user] after a colon pass the
    filter of [user]. *)
Lemma key_of_longer_user (user x item : string) :
  key_of_user user (user_key (user ++ ":" ++ x) item) = true.
Proof.
  unfold key_of_user, user_key.
  replace ((user ++ ":" ++ x) ++ ":" ++ item)%string
    with ((user ++ ":") ++ (x ++ ":" ++ item))%string.
  - apply prefix_app.
  - rewrite !append_assoc. reflexivity.
Qed.

(** C10.  The pairs (user [a:b], item [c]) and (user [a], item [b:c]) are
    distinct and have the same key, so an update for one is the update for
    the other and changes the record read for the other; every key of a
    user [user:x] passes the prefix filter of [user], and the statistics
    and the error summary of [a], who did nothing, count the record that
    [a:b] made. *)
Theorem colliding_keys :
  (("a:b", "c") <> ("a", "b:c") /\ user_key "a:b" "c" = user_key "a" "b:c")
  /\ (forall wc rt now w m,
        update_question_performance "c" "a:b" wc rt now w m
        = update_question_performance "b:c" "a" wc rt now w m)
  /\ (option_map total_attempts
        (Dict.get (user_key "a" "b:c") (question_data a_answered)) = Some 1
      /\ option_map total_attempts
           (Dict.get (user_key "a" "b:c")
              (question_data
                 (after (update_question_performance "c" "a:b" false 9 0
                           WriteOk a_answered)))) = Some 2)
  /\ (forall user x item,
        key_of_user user (user_key (user ++ ":" ++ x) item) = true)
  /\ (Dict.keys (question_data only_ab_answered) = [user_key "a:b" "c0ffee"]
      /\ total_questions (get_user_statistics "a" only_ab_answered) = 1
      /\ total_reviews (get_user_statistics "a" only_ab_answered) = 1
      /\ ErrorAnalyzer.es_total_questions_attempted
           (ErrorAnalyzer.get_user_error_summary "a" only_ab_answered) = 1
      /\ ErrorAnalyzer.es_total_attempts
           (ErrorAnalyzer.get_user_error_summary "a" only_ab_answered)
         = Some 1).
Proof.
  split; [split; [discriminate|reflexivity]|].
  split; [reflexivity|].
  split; [split; vm_compute; reflexivity|].
  split; [exact key_of_longer_user|].
  repeat split; vm_compute; reflexivity.
Qed.

(** ** Selections from an empty pool or of no question *)

(** What the three selections return for [max_questions = -1] two days
    later: the slices [l[:-1]] drop the last element only. *)
Lemma negative_count_selections :
  map oid (fst (fst (QuizLoader.get_spaced_repetition_quiz plain_id unit
                       first_sample no_shuffle "ann" [q1; q2; q3] (-1)
                       (2 * day_us) tt practised))) = [2%nat; 3%nat]
  /\ map oid (fst (QuizLoader.get_difficult_questions_quiz plain_id unit
                     first_sample no_shuffle "ann" [q1; q2; q3] (-1) tt
                     practised)) = [2%nat; 3%nat]
  /\ map oid (fst (QuizLoader.get_mixed_review_quiz plain_id unit
                     first_sample no_shuffle "ann" [q1; q2; q3] (-1)
                     (2 * day_us) tt practised)) = [2%nat].
Proof. repeat split; vm_compute; reflexivity. Qed.

(** C6, as stated, fails for a negative [max_questions]: with -1 and three
    practised questions none of the three selections is empty. *)
Lemma negative_count_not_empty :
  ~ empty_when_nothing_asked plain_id unit first_sample no_shuffle "ann"
      [q1; q2; q3] (-1) (2 * day_us) tt practised.
Proof.
  intros H. destruct H as (H1 & _ & _); [right; lia|].
  apply (f_equal (map oid)) in H1.
  rewrite (proj1 negative_count_selections) in H1. discriminate H1.
Qed.

Section Selection.

Variable md5_hex12 : string -> string.
Variable rng : Type.
Variable sample : rng -> list Question -> Z -> list Question * rng.
Variable shuffle : rng -> list Question -> list Question * rng.

(** [random.shuffle] permutes its list. *)
Hypothesis shuffle_perm : forall g l, Permutation l (fst (shuffle g l)).

Lemma shuffle_nil g : fst (shuffle g []) = [].
Proof. apply Permutation_nil, shuffle_perm. Qed.

Lemma slice_to_zero {A} (l : list A) : slice_to 0 l = [].
Proof. reflexivity. Qed.

Lemma take_ranked_zero question_map ranked :
  QuizLoader.take_ranked question_map 0 ranked = [].
Proof. reflexivity. Qed.

Lemma random_fill_zero all_questions g :
  QuizLoader.random_fill rng sample all_questions [] 0 g = ([], g).
Proof. reflexivity. Qed.

Lemma difficult_quiz_zero username all_questions g m :
  fst (QuizLoader.get_difficult_questions_quiz md5_hex12 rng sample
         shuffle username all_questions 0 g m) = [].
Proof.
  unfold QuizLoader.get_difficult_questions_quiz.
  destruct all_questions as [|q l]; [reflexivity|].
  rewrite take_ranked_zero, random_fill_zero. apply shuffle_nil.
Qed.

(** C6, amended.  Each of the three selections returns the empty list
    when the pool is empty and when [max_questions = 0]. *)
Theorem empty_pool_or_zero_count username all_questions max_questions
    now g m :
  all_questions = [] \/ max_questions = 0 ->
  fst (fst (QuizLoader.get_spaced_repetition_quiz md5_hex12 rng sample
              shuffle username all_questions max_questions now g m)) = []
  /\ fst (QuizLoader.get_difficult_questions_quiz md5_hex12 rng sample
            shuffle username all_questions max_questions g m) = []
  /\ fst (QuizLoader.get_mixed_review_quiz md5_hex12 rng sample shuffle
            username all_questions max_questions now g m) = [].
Proof.
  intros [->| ->]; [repeat split; reflexivity|].
  split; [|split].
  - unfold QuizLoader.get_spaced_repetition_quiz.
    destruct all_questions as [|q l]; [reflexivity|].
    rewrite take_ranked_zero, random_fill_zero.
    pose proof (shuffle_nil g) as Hs.
    destruct (shuffle g []) as [l' g']. exact Hs.
  - apply difficult_quiz_zero.
  - unfold QuizLoader.get_mixed_review_quiz.
    destruct all_questions as [|q l]; [reflexivity|].
    change (py_int (inject_Z 0 * 0.6)) with 0. simpl (0 - 0).
    rewrite take_ranked_zero.
    pose proof (difficult_quiz_zero username (q :: l) g m) as Hd.
    destruct (QuizLoader.get_difficult_questions_quiz _ _ _ _ _ _ _ _ _)
      as [dq g1].
    simpl in Hd. subst dq. simpl.
    pose proof (shuffle_nil g1) as Hs.
    destruct (shuffle g1 []) as [l' g']. reflexivity.
Qed.

End Selection.

Lemma no_shuffle_perm : forall g l, Permutation l (fst (no_shuffle g l)).
Proof. intros g l. apply Permutation_refl. Defined.

Lemma empty_pool_or_zero_count_witness :
  (forall g l, Permutation l (fst (no_shuffle g l)))
  /\ ([q1; q2; q3] = [] \/ 0 = 0)
  /\ fst (fst (QuizLoader.get_spaced_repetition_quiz plain_id unit
                 first_sample no_shuffle "ann" [q1; q2; q3] 0 (2 * day_us) tt
                 practised)) = []
  /\ fst (QuizLoader.get_difficult_questions_quiz plain_id unit first_sample
            no_shuffle "ann" [q1; q2; q3] 0 tt practised) = []
  /\ fst (QuizLoader.get_mixed_review_quiz plain_id unit first_sample
            no_shuffle "ann" [q1; q2; q3] 0 (2 * day_us) tt practised) = [].
Proof.
  split; [exact no_shuffle_perm|]. split; [right; reflexivity|].
  apply (empty_pool_or_zero_count plain_id unit first_sample no_shuffle
           no_shuffle_perm "ann" [q1; q2; q3] 0 (2 * day_us) tt practised).
  right; reflexivity.
Defined.

(** ** The review schedule *)

(** C8, as stated, fails: one hour into day 0, with a horizon of one day,
    the window ends one hour into day 1, but the schedule has no bucket for
    day 1, where the record of [answered_once] is due at midnight. *)
Lemma schedule_misses_last_date :
  ~ schedule_as_specified "ann" 1 3600000000 answered_once.
Proof.
  intros H. destruct H as [H _]; [lia|].
  specialize (H 1). vm_compute in H.
  assert (Hf : false = true) by (apply H; split; discriminate).
  discriminate Hf.
Qed.

Lemma schedule_mem_get d s :
  schedule_mem d s = match schedule_get d s with
                     | Some _ => true
                     | None => false
                     end.
Proof.
  unfold schedule_mem, schedule_get.
  induction s as [|[d' l] s IH]; simpl; [reflexivity|].
  destruct (d' =? d); [reflexivity|exact IH].
Qed.

Lemma schedule_get_new d d' s :
  schedule_get d' (schedule_new d s)
  = if d' =? d then Some [] else schedule_get d' s.
Proof.
  unfold schedule_get. induction s as [|[d0 l] s IH]; simpl.
  - rewrite (Z.eqb_sym d d'). now destruct (d' =? d).
  - destruct (d0 =? d) eqn:E0; simpl.
    + apply Z.eqb_eq in E0. subst d0. rewrite (Z.eqb_sym d d').
      now destruct (d' =? d).
    + destruct (d0 =? d') eqn:E1.
      * apply Z.eqb_eq in E1. subst d0. now rewrite E0.
      * exact IH.
Qed.

Lemma schedule_get_append d d' q s :
  schedule_get d' (schedule_append d q s)
  = if d' =? d then option_map (fun l => (l ++ [q])%list) (schedule_get d s)
    else schedule_get d' s.
Proof.
  unfold schedule_get. induction s as [|[d0 l] s IH]; simpl.
  - now destruct (d' =? d).
  - destruct (d0 =? d) eqn:E0; simpl.
    + apply Z.eqb_eq in E0. subst d0. rewrite (Z.eqb_sym d d').
      now destruct (d' =? d).
    + destruct (d0 =? d') eqn:E1.
      * apply Z.eqb_eq in E1. subst d0. now rewrite E0.
      * exact IH.
Qed.

Lemma schedule_get_init (f : Z -> Z) d : forall (l : list Z) s,
  schedule_get d (fold_left (fun s i => schedule_new (f i) s) l s)
  = if existsb (fun i => d =? f i) l then Some [] else schedule_get d s.
Proof.
  induction l as [|i l IH]; intros s; simpl; [reflexivity|].
  rewrite IH, schedule_get_new.
  destruct (d =? f i); simpl; now destruct (existsb _ l).
Qed.

Lemma date_key_add now i :
  date_key (now + timedelta_days i) = date_key now + i.
Proof. unfold date_key, timedelta_days. now apply Z.div_add. Qed.

Lemma bucket_dates now days d :
  existsb (fun i => d =? date_key (now + timedelta_days i)) (range days)
  = (date_key now <=? d) && (d <? date_key now + days).
Proof.
  apply eq_true_iff_eq. rewrite existsb_exists, andb_true_iff.
  rewrite Z.leb_le, Z.ltb_lt. unfold range. split.
  - intros (i & Hin & Hd). apply in_map_iff in Hin.
    destruct Hin as (n & <- & Hn). apply in_seq in Hn.
    apply Z.eqb_eq in Hd. rewrite date_key_add in Hd. lia.
  - intros [Hlo Hhi]. exists (d - date_key now). split.
    + apply in_map_iff. exists (Z.to_nat (d - date_key now)).
      split; [lia|]. apply in_seq. lia.
    + apply Z.eqb_eq. rewrite date_key_add. lia.
Qed.

Lemma schedule_get_loop user days now d : forall kvs s,
  schedule_get d
    (fold_left
       (fun s kv =>
          let '(key, data) := kv in
          if key_of_user user key then
            if (now <=? next_review data)
               && (next_review data <=? now + timedelta_days days)
            then
              let d := date_key (next_review data) in
              if schedule_mem d s
              then schedule_append d (question_id_of_key key) s
              else s
            else s
          else s)
       kvs s)
  = option_map (fun l => (l ++ scheduled_on user days now d kvs)%list)
      (schedule_get d s).
Proof.
  induction kvs as [|[key data] kvs IH]; intros s.
  - simpl. destruct (schedule_get d s); simpl; [|reflexivity].
    now rewrite app_nil_r.
  - cbn [fold_left]. rewrite IH. unfold scheduled_on. cbn [filter fst snd].
    destruct (key_of_user user key); cbn [andb]; [|reflexivity].
    destruct ((now <=? next_review data)
              && (next_review data <=? now + timedelta_days days));
      cbn [andb]; [|reflexivity].
    rewrite schedule_mem_get.
    destruct (date_key (next_review data) =? d) eqn:E.
    + apply Z.eqb_eq in E. rewrite E.
      destruct (schedule_get d s) as [l|] eqn:Eg.
      * rewrite schedule_get_append, Z.eqb_refl, Eg. simpl.
        now rewrite <- app_assoc.
      * now rewrite Eg.
    + destruct (schedule_get (date_key (next_review data)) s);
        [|reflexivity].
      rewrite schedule_get_append, (Z.eqb_sym d), E. reflexivity.
Qed.

(** The bucket of every date, exactly. *)
Lemma schedule_get_spec user days now m d :
  schedule_get d (get_review_schedule user days now m)
  = if (date_key now <=? d) && (d <? date_key now + days)
    then Some (scheduled_on user days now d (question_data m))
    else None.
Proof.
  unfold get_review_schedule.
  rewrite schedule_get_loop, schedule_get_init, bucket_dates.
  now destruct ((date_key now <=? d) && (d <? date_key now + days)).
Qed.

Lemma split_colon_user_key user item :
  colon_free user -> split_colon (user_key user item) = Some (user, item).
Proof.
  unfold colon_free, user_key.
  induction user as [|c user IH]; simpl; [reflexivity|].
  destruct (Ascii.eqb c ":"); [discriminate|].
  destruct (split_colon user) as [[a b]|]; [discriminate|].
  intros _. simpl in IH. now rewrite (IH eq_refl).
Qed.

Lemma key_of_user_key user item : key_of_user user (user_key user item) = true.
Proof.
  unfold key_of_user, user_key.
  replace (user ++ ":" ++ item)%string with ((user ++ ":") ++ item)%string
    by now rewrite append_assoc.
  apply prefix_app.
Qed.

(** C8, amended.  The schedule has a bucket exactly for the [days] dates
    from the date of [now] on, so none for the date of [now + days]; a
    record of the user whose next review is within [[now, now + days]] is in
    the bucket of its date when that date has a bucket (a record that falls
    on the date of [now + days] is left out); and a bucket holds nothing but
    such records, so a date without reviews has the empty list.  The id
    under which a record is listed is its key after the first colon, which
    is the item id for a user name without a colon. *)
Theorem schedule_buckets user days now m :
  (forall d,
      schedule_mem d (get_review_schedule user days now m) = true
      <-> date_key now <= d < date_key now + days)
  /\ (forall item data,
        colon_free user ->
        Dict.get (user_key user item) (question_data m) = Some data ->
        now <= next_review data <= now + timedelta_days days ->
        date_key (next_review data) < date_key now + days ->
        exists l,
          schedule_get (date_key (next_review data))
            (get_review_schedule user days now m) = Some l
          /\ In item l)
  /\ (forall d l q,
        schedule_get d (get_review_schedule user days now m) = Some l ->
        In q l ->
        exists key data,
          In (key, data) (question_data m)
          /\ key_of_user user key = true
          /\ question_id_of_key key = q
          /\ date_key (next_review data) = d
          /\ now <= next_review data <= now + timedelta_days days).
Proof.
  split; [|split].
  - intros d. rewrite schedule_mem_get, schedule_get_spec.
    destruct ((date_key now <=? d) && (d <? date_key now + days)) eqn:E.
    + apply andb_true_iff in E. rewrite Z.leb_le, Z.ltb_lt in E. tauto.
    + apply andb_false_iff in E. rewrite Z.leb_gt, Z.ltb_ge in E.
      split; [discriminate|lia].
  - intros item data Hfree Hget Hwin Hdate.
    rewrite schedule_get_spec.
    assert (Hlo : date_key now <= date_key (next_review data)).
    { unfold date_key. apply Z.div_le_mono; [reflexivity|lia]. }
    replace ((date_key now <=? date_key (next_review data))
             && (date_key (next_review data) <? date_key now + days))
      with true
      by (symmetry; apply andb_true_iff; rewrite Z.leb_le, Z.ltb_lt; lia).
    eexists. split; [reflexivity|].
    unfold scheduled_on. apply in_map_iff.
    exists (user_key user item, data). split.
    + unfold question_id_of_key. simpl.
      now rewrite (split_colon_user_key user item Hfree).
    + apply filter_In. split; [now apply get_In|]. simpl.
      rewrite key_of_user_key, Z.eqb_refl.
      replace (now <=? next_review data) with true
        by (symmetry; apply Z.leb_le; lia).
      replace (next_review data <=? now + timedelta_days days) with true
        by (symmetry; apply Z.leb_le; lia).
      reflexivity.
  - intros d l q Hget Hin. rewrite schedule_get_spec in Hget.
    destruct ((date_key now <=? d) && (d <? date_key now + days));
      [|discriminate].
    injection Hget as <-. unfold scheduled_on in Hin.
    apply in_map_iff in Hin. destruct Hin as ([key data] & Hq & Hin).
    apply filter_In in Hin. destruct Hin as [Hin Hc]. simpl in Hq, Hc.
    apply andb_true_iff in Hc. destruct Hc as [Hc Hd].
    apply andb_true_iff in Hc. destruct Hc as [Hu Hw].
    apply andb_true_iff in Hw. rewrite !Z.leb_le in Hw.
    apply Z.eqb_eq in Hd.
    exists key, data. repeat split; auto; lia.
Qed.

Lemma schedule_buckets_witness :
  colon_free "ann"
  /\ Dict.get (user_key "ann" "X") (question_data answered_once)
     = Some (mkData 2.600000 1 1 86400000000 1 1 3 3 0)
  /\ 3600000000 <= 86400000000 <= 3600000000 + timedelta_days 7
  /\ date_key 86400000000 < date_key 3600000000 + 7
  /\ exists l,
       schedule_get (date_key 86400000000)
         (get_review_schedule "ann" 7 3600000000 answered_once) = Some l
       /\ In "X" l.
Proof.
  assert (Hget : Dict.get (user_key "ann" "X") (question_data answered_once)
                 = Some (mkData 2.600000 1 1 86400000000 1 1 3 3 0))
    by (vm_compute; reflexivity).
  split; [reflexivity|]. split; [exact Hget|].
  split; [vm_compute; split; discriminate|].
  split; [vm_compute; reflexivity|].
  apply (proj1 (proj2 (schedule_buckets "ann" 7 3600000000 answered_once))
           "X" (mkData 2.600000 1 1 86400000000 1 1 3 3 0));
    [reflexivity|exact Hget|vm_compute; split; discriminate
    |vm_compute; reflexivity].
Defined.


(** * Further properties of the code *)

(** ** Initialization and updates, record by record *)

Lemma initialize_question_get qid user now m key :
  Dict.get key (question_data (initialize_question qid user now m))
  = match Dict.get key (question_data m) with
    | Some d => Some d
    | None =>
        if String.eqb key (user_key user qid)
        then Some (fresh_data now) else None
    end.
Proof.
  unfold initialize_question.
  destruct (Dict.mem (user_key user qid) (question_data m)) eqn:E.
  - destruct (Dict.get key (question_data m)) eqn:Eg; [reflexivity|].
    destruct (String.eqb_spec key (user_key user qid)) as [->|]; auto.
    apply mem_get_some in E. destruct E as [v E]. congruence.
  - simpl. apply mem_get_none in E.
    destruct (String.eqb_spec key (user_key user qid)) as [->|Hne].
    + now rewrite get_set_same, E.
    + rewrite get_set_other by congruence.
      now destruct (Dict.get key (question_data m)).
Qed.

(** X1.  [initialize_question] is idempotent, whatever the clock says the
    second time; it creates the fresh record when the key is new and else
    leaves every record as it is; it neither writes the data file nor
    prints. *)
Theorem initialize_question_idempotent qid user now now' m :
  initialize_question qid user now' (initialize_question qid user now m)
  = initialize_question qid user now m
  /\ (forall key,
        Dict.get key (question_data (initialize_question qid user now m))
        = match Dict.get key (question_data m) with
          | Some d => Some d
          | None =>
              if String.eqb key (user_key user qid)
              then Some (fresh_data now) else None
          end)
  /\ data_file (initialize_question qid user now m) = data_file m
  /\ printed (initialize_question qid user now m) = printed m.
Proof.
  split; [|split; [intros key; apply initialize_question_get|]].
  - unfold initialize_question.
    destruct (Dict.mem (user_key user qid) (question_data m)) eqn:E.
    + now rewrite E.
    + simpl. unfold Dict.mem. now rewrite get_set_same.
  - unfold initialize_question.
    now destruct (Dict.mem (user_key user qid) (question_data m)).
Qed.

(** X2.  An update touches the record of its own key only: however the
    call ends, every other record reads as before. *)
Theorem update_leaves_other_records qid user wc rt now w m key :
  key <> user_key user qid ->
  Dict.get key
    (question_data
       (after (update_question_performance qid user wc rt now w m)))
  = Dict.get key (question_data m).
Proof.
  intros Hne. unfold update_question_performance.
  set (m0 := if Dict.mem (user_key user qid) (question_data m) then m
             else initialize_question qid user now m).
  assert (H0 : Dict.get key (question_data m0)
               = Dict.get key (question_data m)).
  { subst m0. destruct (Dict.mem _ _) eqn:E; [reflexivity|].
    unfold initialize_question. rewrite E. simpl.
    apply get_set_other. congruence. }
  destruct (Dict.get (user_key user qid) (question_data m0)) as [data|];
    [|exact H0].
  destruct (total_attempts data + 1 =? 0).
  - simpl. rewrite get_set_other by congruence. exact H0.
  - destruct (sm2_step wc data) as [i r]. simpl.
    rewrite get_saved_other by congruence. exact H0.
Qed.

Lemma update_leaves_other_records_witness :
  "ann:Y" <> user_key "ann" "X"
  /\ Dict.get "ann:Y"
       (question_data
          (after (update_question_performance "X" "ann" true 3 0 WriteOk
                    practised)))
     = Dict.get "ann:Y" (question_data practised).
Proof.
  split; [discriminate|].
  apply (update_leaves_other_records "X" "ann" true 3 0 WriteOk practised
           "ann:Y"). discriminate.
Defined.






(** ** How the ease factor and the interval move *)









(** ** Due questions and priorities *)




(** X8.  A question without a record has priority 100 and is due; once
    [initialize_question] has made its record, as [get_spaced_repetition_quiz]
    does for its whole pool before it ranks, the question is still due at
    the same clock reading but its priority is 60. *)
Theorem new_question_priority qid user now m :
  Dict.get (user_key user qid) (question_data m) = None ->
  (get_question_priority qid user now m == 100)%Q
  /\ (get_question_priority qid user now
        (initialize_question qid user now m) == 60)%Q
  /\ get_questions_due_for_review user [qid] now m = [qid]
  /\ get_questions_due_for_review user [qid] now
       (initialize_question qid user now m) = [qid].
Proof.
  intros Hget.
  assert (Hi : Dict.get (user_key user qid)
                 (question_data (initialize_question qid user now m))
               = Some (fresh_data now)).
  { rewrite initialize_question_get, Hget. now rewrite String.eqb_refl. }
  unfold get_question_priority, get_questions_due_for_review.
  simpl. rewrite Hget, Hi. simpl.
  rewrite Z.leb_refl. unfold days_between. rewrite Z.sub_diag. simpl.
  repeat split; reflexivity.
Qed.

Lemma new_question_priority_witness :
  Dict.get (user_key "ann" "Y") (question_data answered_once) = None
  /\ (get_question_priority "Y" "ann" 5 answered_once == 100)%Q
  /\ (get_question_priority "Y" "ann" 5
        (initialize_question "Y" "ann" 5 answered_once) == 60)%Q
  /\ get_questions_due_for_review "ann" ["Y"] 5 answered_once = ["Y"]
  /\ get_questions_due_for_review "ann" ["Y"] 5
       (initialize_question "Y" "ann" 5 answered_once) = ["Y"].
Proof.
  split; [reflexivity|].
  apply (new_question_priority "Y" "ann" 5 answered_once). reflexivity.
Defined.

Lemma success_rate_nonneg (c t : Z) :
  0 <= c -> (0 <= inject_Z c / inject_Z (Z.max 1 t))%Q.
Proof.
  intros Hc. apply Qle_shift_div_l.
  - rewrite <- (Zlt_Qlt 0). lia.
  - rewrite Qmult_0_l. rewrite <- (Zle_Qle 0). exact Hc.
Qed.

(** X9.  Waiting never lowers a priority: between two clock readings the
    priority of a question does not decrease. *)
Theorem priority_grows_with_time qid user now now' m :
  now <= now' ->
  (get_question_priority qid user now m
   <= get_question_priority qid user now' m)%Q.
Proof.
  intros Hle. unfold get_question_priority.
  destruct (Dict.get (user_key user qid) (question_data m)) as [data|];
    [|apply Qle_refl].
  assert (Hd : days_between now (next_review data)
               <= days_between now' (next_review data)).
  { unfold days_between. apply Z.div_le_mono; [reflexivity|lia]. }
  set (d := days_between now (next_review data)) in *.
  set (d' := days_between now' (next_review data)) in *.
  assert (H1 : (inject_Z (Z.max 0 d * 10) <= inject_Z (Z.max 0 d' * 10))%Q)
    by (rewrite <- Zle_Qle; lia).
  assert (H2 : (inject_Z (Z.min d 30) <= inject_Z (Z.min d' 30))%Q)
    by (rewrite <- Zle_Qle; lia).
  lra.
Qed.

Lemma priority_grows_with_time_witness :
  0 <= 864000000000
  /\ (get_question_priority "X" "ann" 0 answered_once
      <= get_question_priority "X" "ann" 864000000000 answered_once)%Q.
Proof.
  split; [lia|].
  apply (priority_grows_with_time "X" "ann" 0 864000000000 answered_once).
  lia.
Defined.

(** X10.  A well-formed record that is less than a day overdue has a
    priority of at most 84, below the 100 of a question without a record;
    from ten days overdue on its priority is above 100 whenever its ease
    factor is below 3.5. *)
Theorem priority_against_new qid user now m data :
  Dict.get (user_key user qid) (question_data m) = Some data ->
  record_ok data ->
  (now < next_review data + day_us ->
   (get_question_priority qid user now m <= 84)%Q)
  /\ (next_review data + 10 * day_us <= now ->
      (ease_factor data < 3.5)%Q ->
      (100 < get_question_priority qid user now m)%Q).
Proof.
  intros Hget Hok. unfold get_question_priority. rewrite Hget.
  destruct Hok as [Hc He _ _].
  set (sr := (inject_Z (correct_attempts data)
              / inject_Z (Z.max 1 (total_attempts data)))%Q).
  assert (Hsr : (0 <= sr)%Q) by (apply success_rate_nonneg; lia).
  assert (Hsr1 : (sr <= 1)%Q).
  { unfold sr. apply Qle_shift_div_r.
    - rewrite <- (Zlt_Qlt 0). lia.
    - rewrite Qmult_1_l. rewrite <- Zle_Qle. lia. }
  split.
  - intros Hnow.
    assert (Hd : days_between now (next_review data) <= 0).
    { unfold days_between.
      assert (H : (now - next_review data) / day_us < 1)
        by (apply Z.div_lt_upper_bound; [reflexivity|lia]).
      lia. }
    set (d := days_between now (next_review data)) in *.
    assert (H1 : (inject_Z (Z.max 0 d * 10) <= 0)%Q)
      by (rewrite <- (Zle_Qle _ 0); lia).
    assert (H2 : (inject_Z (Z.min d 30) <= 0)%Q)
      by (rewrite <- (Zle_Qle _ 0); lia).
    lra.
  - intros Hnow Hease.
    assert (Hd : 10 <= days_between now (next_review data)).
    { unfold days_between. apply Z.div_le_lower_bound; [reflexivity|lia]. }
    set (d := days_between now (next_review data)) in *.
    assert (H1 : (100 <= inject_Z (Z.max 0 d * 10))%Q)
      by (rewrite <- (Zle_Qle 100); lia).
    assert (H2 : (10 <= inject_Z (Z.min d 30))%Q)
      by (rewrite <- (Zle_Qle 10); lia).
    lra.
Qed.

Lemma priority_against_new_witness :
  Dict.get (user_key "ann" "X") (question_data answered_once)
  = Some (mkData 2.600000 1 1 86400000000 1 1 3 3 0)
  /\ record_ok (mkData 2.600000 1 1 86400000000 1 1 3 3 0)
  /\ (90000000000 < 86400000000 + day_us ->
      (get_question_priority "X" "ann" 90000000000 answered_once <= 84)%Q)
  /\ (86400000000 + 10 * day_us <= 90000000000 ->
      (2.600000 < 3.5)%Q ->
      (100 < get_question_priority "X" "ann" 90000000000 answered_once)%Q).
Proof.
  assert (Hget : Dict.get (user_key "ann" "X") (question_data answered_once)
                 = Some (mkData 2.600000 1 1 86400000000 1 1 3 3 0))
    by (vm_compute; reflexivity).
  assert (Hok : record_ok (mkData 2.600000 1 1 86400000000 1 1 3 3 0))
    by (constructor; simpl; try lia; unfold Qle; simpl; lia).
  split; [exact Hget|]. split; [exact Hok|].
  apply (priority_against_new "X" "ann" 90000000000 answered_once
           (mkData 2.600000 1 1 86400000000 1 1 3 3 0) Hget Hok).
Defined.

(** ** Statistics *)

Lemma count_bounds {A} (p : A -> bool) (l : list A) :
  0 <= count p l <= len l.
Proof.
  unfold count, len. pose proof (filter_length_le p l). lia.
Qed.

Lemma count_disjoint {A} (p q : A -> bool) (l : list A) :
  (forall x, p x = true -> q x = false) ->
  count p l + count q l <= len l.
Proof.
  intros Hd. unfold count, len.
  induction l as [|x l IH]; simpl; [lia|].
  destruct (p x) eqn:Ep.
  - rewrite (Hd x Ep). simpl length. lia.
  - destruct (q x); simpl length; lia.
Qed.

(** X11.  In the statistics of a user the number of questions is the
    number of keys that start with [username:]; no question counts both as
    mastered and as learning, nor both as mastered and as difficult, so
    each of the two sums stays within the number of questions; and a user
    without keys has the statistics with six zeros. *)
Theorem statistics_counts user m :
  let s := get_user_statistics user m in
  total_questions s = len (user_questions user m)
  /\ 0 <= questions_mastered s
  /\ 0 <= questions_learning s
  /\ 0 <= questions_difficult s
  /\ questions_mastered s + questions_learning s <= total_questions s
  /\ questions_mastered s + questions_difficult s <= total_questions s
  /\ (total_questions s = 0 -> s = mkStats 0 0 0 0 0 0).
Proof.
  unfold get_user_statistics.
  assert (Hlen : len (Dict.values (user_questions user m))
                 = len (user_questions user m))
    by (unfold len, Dict.values; now rewrite length_map).
  destruct (Dict.values (user_questions user m)) as [|d l] eqn:E.
  - simpl. rewrite <- Hlen. simpl. repeat split; reflexivity || lia.
  - rewrite <- Hlen. cbv zeta. cbn [total_questions questions_mastered
      questions_learning questions_difficult].
    split; [reflexivity|].
    split; [apply count_bounds|]. split; [apply count_bounds|].
    split; [apply count_bounds|]. split; [|split].
    + apply count_disjoint. intros x Hx.
      apply andb_true_iff in Hx. destruct Hx as [Hx _].
      apply Z.leb_le in Hx. apply andb_false_iff. right.
      apply Z.ltb_ge. exact Hx.
    + apply count_disjoint. intros x Hx.
      apply andb_true_iff in Hx. destruct Hx as [_ Hx].
      apply Qle_bool_iff in Hx. apply negb_false_iff.
      apply Qle_bool_iff. eapply Qle_trans; [|exact Hx].
      unfold Qle; simpl; lia.
    + unfold len. simpl length. lia.
Qed.

(** ** Keys of users whose names have no colon *)

Lemma prefix_split (p s : string) :
  String.prefix p s = true -> exists r, s = (p ++ r)%string.
Proof.
  revert s. induction p as [|c p IH]; intros s H.
  - now exists s.
  - destruct s as [|c' s]; simpl in H; [discriminate H|].
    destruct (ascii_dec c c') as [->|]; [|discriminate H].
    destruct (IH s H) as [r ->]. now exists r.
Qed.

Lemma split_colon_has_colon (a b : string) :
  split_colon (a ++ ":" ++ b) <> None.
Proof.
  induction a as [|c a IH]; simpl; [discriminate|].
  destruct (Ascii.eqb c ":"); [discriminate|].
  simpl in IH. destruct (split_colon (a ++ String ":" b)) as [[x y]|];
    [discriminate|contradiction].
Qed.

Lemma colon_free_cons c s :
  colon_free (String c s) -> c <> ":"%char /\ colon_free s.
Proof.
  unfold colon_free. simpl. destruct (Ascii.eqb_spec c ":"); [discriminate|].
  destruct (split_colon s) as [[a b]|]; [discriminate|]. auto.
Qed.

Lemma same_key_same_user : forall u v i r,
  colon_free v -> colon_free i ->
  (v ++ ":" ++ i = u ++ ":" ++ r)%string -> u = v.
Proof.
  induction u as [|c u IH]; intros v i r Hv Hi Heq.
  - destruct v as [|c' v]; [reflexivity|].
    apply colon_free_cons in Hv. simpl in Heq. injection Heq as -> _.
    now destruct Hv.
  - destruct v as [|c' v].
    + simpl in Heq. injection Heq as <- ->.
      exfalso. now apply (split_colon_has_colon u r).
    + simpl in Heq. injection Heq as <- Heq.
      apply colon_free_cons in Hv. destruct Hv as [_ Hv].
      f_equal. now apply (IH v i r).
Qed.

(** X12.  For a user name without a colon the key tells user and item
    apart: among such names equal keys mean equal users and equal items,
    and when the item has no colon either (the ids are hexadecimal
    digests) the key passes the [startswith] filter of no other user,
    with or without a colon in that user's name. *)
Theorem colon_free_keys_are_safe u v i j :
  colon_free v ->
  (colon_free u -> user_key u i = user_key v j -> u = v /\ i = j)
  /\ (colon_free j -> key_of_user u (user_key v j) = true -> u = v).
Proof.
  intros Hv. split.
  - intros Hu Heq.
    pose proof (split_colon_user_key u i Hu) as H1.
    pose proof (split_colon_user_key v j Hv) as H2.
    rewrite Heq in H1. rewrite H1 in H2. now injection H2 as -> ->.
  - intros Hj Hk. unfold key_of_user in Hk.
    apply prefix_split in Hk. destruct Hk as [r Hr].
    unfold user_key in Hr. rewrite append_assoc in Hr.
    now apply (same_key_same_user u v j r).
Qed.

Lemma colon_free_keys_are_safe_witness :
  colon_free "ann"
  /\ (colon_free "ann" -> user_key "ann" "X" = user_key "ann" "X" ->
      "ann" = "ann" /\ "X" = "X")
  /\ (colon_free "X" -> key_of_user "ann" (user_key "ann" "X") = true ->
      "ann" = "ann").
Proof.
  split; [reflexivity|].
  apply (colon_free_keys_are_safe "ann" "ann" "X" "X"). reflexivity.
Defined.

(** ** The data file *)



(** ** Sorting, highest first *)

Lemma firstn_In {A} (n : nat) (l : list A) x : In x (firstn n l) -> In x l.
Proof.
  revert n. induction l as [|y l IH]; intros [|n]; simpl; try tauto.
  intros [->|H]; [now left|right; eauto].
Qed.

Section SortFacts.
Context {A : Type} (key : A -> Q).

Let lt (a b : A) : bool := Qlt_bool (key a) (key b).
Let ge (a b : A) : Prop := (key b <= key a)%Q.

Lemma Qlt_bool_false (a b : Q) : Qlt_bool a b = false -> (b <= a)%Q.
Proof.
  unfold Qlt_bool. intros H. apply negb_false_iff in H.
  now apply Qle_bool_iff.
Qed.

Lemma Qlt_bool_true (a b : Q) : Qlt_bool a b = true -> (a < b)%Q.
Proof.
  unfold Qlt_bool. intros H. apply negb_true_iff in H.
  apply Qnot_le_lt. intros Hle. apply Qle_bool_iff in Hle. congruence.
Qed.

Lemma insert_desc_perm (f : A -> A -> bool) x l :
  Permutation (insert_desc f x l) (x :: l).
Proof.
  induction l as [|y l IH]; simpl; [reflexivity|].
  destruct (f x y); [|reflexivity].
  rewrite IH. apply perm_swap.
Qed.

Lemma sort_desc_perm (f : A -> A -> bool) l : Permutation (sort_desc f l) l.
Proof.
  induction l as [|x l IH]; simpl; [reflexivity|].
  rewrite insert_desc_perm. now constructor.
Qed.

Lemma insert_desc_sorted x l :
  StronglySorted ge l -> StronglySorted ge (insert_desc lt x l).
Proof.
  induction 1 as [|y l Hs IH Hall]; simpl.
  - repeat constructor.
  - destruct (lt x y) eqn:E.
    + constructor; [exact IH|].
      apply (Permutation_Forall (Permutation_sym (insert_desc_perm lt x l))).
      constructor; [|exact Hall].
      unfold ge. apply Qlt_le_weak. now apply Qlt_bool_true.
    + apply Qlt_bool_false in E.
      constructor; [now constructor|].
      constructor; [exact E|].
      eapply Forall_impl; [|exact Hall].
      intros z Hz. unfold ge in *. lra.
Qed.

Lemma sort_desc_sorted l : StronglySorted ge (sort_desc lt l).
Proof.
  induction l as [|x l IH]; simpl; [constructor|].
  now apply insert_desc_sorted.
Qed.

Lemma firstn_sorted n l :
  StronglySorted ge l -> StronglySorted ge (firstn n l).
Proof.
  intros Hs. revert n. induction Hs as [|y l Hs IH Hall]; intros [|n]; simpl;
    try constructor; auto.
  apply Forall_forall. intros z Hz. apply firstn_In in Hz.
  rewrite Forall_forall in Hall. auto.
Qed.

End SortFacts.

Lemma slice_to_length {A} (n : Z) (l : list A) :
  0 <= n -> len (slice_to n l) <= n.
Proof.
  intros Hn. unfold slice_to, len.
  destruct (n <? 0) eqn:E; [apply Z.ltb_lt in E; lia|].
  pose proof (firstn_le_length (Z.to_nat n) l).
  rewrite length_firstn. lia.
Qed.

Lemma slice_to_In {A} (n : Z) (l : list A) x :
  In x (slice_to n l) -> In x l.
Proof. unfold slice_to. destruct (n <? 0); apply firstn_In. Qed.

(** ** The error summary *)

(** X14.  The error summary lists at most 10 difficult questions, highest
    difficulty score first, each of them attempted at least twice, and
    gives at most 4 suggestions, at least one when the user has data. *)
Theorem error_summary_lists user m :
  let s := ErrorAnalyzer.get_user_error_summary user m in
  len (ErrorAnalyzer.es_most_difficult_questions s) <= 10
  /\ StronglySorted
       (fun a b =>
          (ErrorAnalyzer.dq_difficulty_score b
           <= ErrorAnalyzer.dq_difficulty_score a)%Q)
       (ErrorAnalyzer.es_most_difficult_questions s)
  /\ Forall (fun q => 2 <= ErrorAnalyzer.dq_attempts q)
       (ErrorAnalyzer.es_most_difficult_questions s)
  /\ len (ErrorAnalyzer.es_improvement_suggestions s) <= 4
  /\ (ErrorAnalyzer.es_total_questions_attempted s = 0
      \/ 1 <= len (ErrorAnalyzer.es_improvement_suggestions s)).
Proof.
  unfold ErrorAnalyzer.get_user_error_summary.
  destruct (ErrorAnalyzer.user_data_of user m) as [|kv ud] eqn:E.
  - simpl. split; [unfold len; simpl; lia|]. split; [constructor|].
    split; [constructor|]. split; [unfold len; simpl; lia|]. now left.
  - cbv zeta. cbn [ErrorAnalyzer.es_most_difficult_questions
      ErrorAnalyzer.es_improvement_suggestions
      ErrorAnalyzer.es_total_questions_attempted].
    split; [apply slice_to_length; lia|].
    split; [apply firstn_sorted, sort_desc_sorted|].
    split.
    + apply Forall_forall. intros q Hq. apply slice_to_In in Hq.
      apply (Permutation_in _ (sort_desc_perm _ _)) in Hq.
      apply in_flat_map in Hq. destruct Hq as ([qid data] & _ & Hq).
      destruct (2 <=? total_attempts data) eqn:E2; [|contradiction].
      destruct (Qlt_bool _ 0.7); [|contradiction].
      destruct Hq as [<-|[]]. simpl. now apply Z.leb_le.
    + split.
      * unfold ErrorAnalyzer._generate_improvement_suggestions.
        apply slice_to_length. lia.
      * right. unfold ErrorAnalyzer._generate_improvement_suggestions.
        unfold slice_to, len. simpl (4 <? 0). cbv iota.
        destruct (Qlt_bool 50 _); [simpl; lia|].
        destruct (Qlt_bool 30 _); [simpl; lia|].
        destruct (Qlt_bool 15 _); simpl; lia.
Qed.

Lemma count_partition3 {A} (f : A -> Z) (l : list A) :
  (forall x, f x = 0 \/ f x = 1 \/ f x = 2) ->
  count (fun x => f x =? 0) l + count (fun x => f x =? 1) l
  + count (fun x => f x =? 2) l = len l.
Proof.
  intros Hf. unfold count, len.
  induction l as [|x l IH]; [reflexivity|].
  cbn [filter].
  destruct (Hf x) as [H|[H|H]]; rewrite H; cbn [Z.eqb Pos.eqb];
    cbn [length]; rewrite ?Nat2Z.inj_succ; lia.
Qed.

(** X15.  The error patterns sort every question of the user into exactly
    one of mastered, struggling and learning, so the three counts add up to
    the number of questions of the summary; and at most 5 slow questions
    are listed. *)
Theorem error_patterns_partition user m :
  match ErrorAnalyzer.es_error_patterns
          (ErrorAnalyzer.get_user_error_summary user m) with
  | Some p =>
      ErrorAnalyzer.ep_questions_mastered p
      + ErrorAnalyzer.ep_questions_struggling p
      + ErrorAnalyzer.ep_questions_learning p
      = ErrorAnalyzer.es_total_questions_attempted
          (ErrorAnalyzer.get_user_error_summary user m)
      /\ 0 <= ErrorAnalyzer.ep_questions_mastered p
      /\ 0 <= ErrorAnalyzer.ep_questions_struggling p
      /\ 0 <= ErrorAnalyzer.ep_questions_learning p
      /\ len (ErrorAnalyzer.ep_slow_questions p) <= 5
  | None =>
      ErrorAnalyzer.es_total_questions_attempted
        (ErrorAnalyzer.get_user_error_summary user m) = 0
  end.
Proof.
  unfold ErrorAnalyzer.get_user_error_summary.
  destruct (ErrorAnalyzer.user_data_of user m) as [|kv ud] eqn:E;
    [reflexivity|].
  cbv zeta. cbn [ErrorAnalyzer.es_error_patterns
    ErrorAnalyzer.es_total_questions_attempted].
  unfold ErrorAnalyzer._analyze_error_patterns.
  cbn [ErrorAnalyzer.ep_questions_mastered
    ErrorAnalyzer.ep_questions_struggling ErrorAnalyzer.ep_questions_learning
    ErrorAnalyzer.ep_slow_questions].
  split; [|split; [apply count_bounds|split; [apply count_bounds|
    split; [apply count_bounds|apply slice_to_length; lia]]]].
  rewrite count_partition3.
  - unfold len, Dict.values. now rewrite length_map.
  - intros x. destruct (_ && _); [auto|]. destruct (Qlt_bool _ _); auto.
Qed.

(** X16.  The progress recommendations are one message for a user without
    data and three or four messages otherwise; the cut at five never
    removes anything. *)
Theorem progress_recommendations_count user m :
  (ErrorAnalyzer.user_data_of user m = []
   /\ len (get_progress_recommendations user m) = 1)
  \/ (ErrorAnalyzer.user_data_of user m <> []
      /\ (len (get_progress_recommendations user m) = 3
          \/ len (get_progress_recommendations user m) = 4)).
Proof.
  unfold get_progress_recommendations, ErrorAnalyzer.get_user_error_summary.
  destruct (ErrorAnalyzer.user_data_of user m) as [|kv ud] eqn:E.
  - left. split; reflexivity.
  - right. split; [discriminate|].
    cbv zeta. cbn [ErrorAnalyzer.es_total_questions_attempted
      ErrorAnalyzer.es_error_rate ErrorAnalyzer.es_most_difficult_questions].
    replace (len (kv :: ud) =? 0) with false
      by (symmetry; apply Z.eqb_neq; unfold len; simpl length; lia).
    destruct (3 <? len _);
      destruct (Qlt_bool 40 _); try (destruct (Qlt_bool 20 _));
      auto.
Qed.

(** ** Lists without repetition *)

Lemma NoDup_firstn {A} (n : nat) (l : list A) : NoDup l -> NoDup (firstn n l).
Proof.
  intros H. revert n. induction H as [|x l Hx Hl IH]; intros [|n]; simpl;
    try constructor; auto.
  intros Hin. apply firstn_In in Hin. contradiction.
Qed.

Lemma NoDup_map_inj {A B} (f : A -> B) (l : list A) x y :
  NoDup (map f l) -> In x l -> In y l -> f x = f y -> x = y.
Proof.
  induction l as [|a l IH]; simpl; [tauto|].
  intros H. inversion H as [|? ? Ha Hl]; subst.
  intros [->|Hx] [->|Hy] Hf; auto.
  - exfalso. apply Ha. rewrite Hf. now apply in_map.
  - exfalso. apply Ha. rewrite <- Hf. now apply in_map.
Qed.

Lemma NoDup_map_on {A B} (f : A -> B) (l s : list A) :
  NoDup (map f l) -> NoDup s -> incl s l -> NoDup (map f s).
Proof.
  intros Hl Hs Hincl. induction Hs as [|x s Hx Hs IH]; simpl; [constructor|].
  constructor.
  - intros Hin. apply in_map_iff in Hin. destruct Hin as (y & Hf & Hy).
    assert (y = x).
    { apply (NoDup_map_inj f l); auto.
      - apply Hincl. now right.
      - apply Hincl. now left. }
    subst y. contradiction.
  - apply IH. intros z Hz. apply Hincl. now right.
Qed.

Lemma slice_to_firstn {A} (n : Z) (l : list A) :
  exists k, slice_to n l = firstn k l.
Proof. unfold slice_to. destruct (n <? 0); eauto. Qed.

Lemma slice_to_len {A} (n : Z) (l : list A) :
  0 <= n -> len (slice_to n l) = Z.min n (len l).
Proof.
  intros Hn. unfold slice_to, len.
  destruct (n <? 0) eqn:E; [apply Z.ltb_lt in E; lia|].
  rewrite length_firstn. lia.
Qed.

Lemma slice_to_map {A B} (f : A -> B) (n : Z) (l : list A) :
  map f (slice_to n l) = slice_to n (map f l).
Proof.
  unfold slice_to. rewrite length_map.
  destruct (n <? 0); now rewrite firstn_map.
Qed.

Lemma slice_to_NoDup {A} (n : Z) (l : list A) :
  NoDup l -> NoDup (slice_to n l).
Proof.
  intros H. destruct (slice_to_firstn n l) as [k ->]. now apply NoDup_firstn.
Qed.

(** ** The size and the members of a quiz *)

Section SelectionFacts.

Variable md5_hex12 : string -> string.
Variable rng : Type.
Variable sample : rng -> list Question -> Z -> list Question * rng.
Variable shuffle : rng -> list Question -> list Question * rng.

(** [random.shuffle] permutes its list; [random.sample(l, k)] returns [k]
    elements taken from [l] without replacement. *)
Hypothesis shuffle_perm : forall g l, Permutation l (fst (shuffle g l)).
Hypothesis sample_spec :
  forall g l k,
    0 <= k <= len l ->
    len (fst (sample g l k)) = k
    /\ exists rest, Permutation l (fst (sample g l k) ++ rest).

Local Notation "'get_id'" := (QuizLoader.get_id md5_hex12).
Local Notation "'question_map_of'" := (QuizLoader.question_map_of md5_hex12).

Lemma question_map_get_in pool : forall acc id q,
  Dict.get id (fold_left (fun d q => Dict.set (get_id q) q d) pool acc)
  = Some q ->
  (In q pool /\ get_id q = id) \/ Dict.get id acc = Some q.
Proof.
  induction pool as [|a pool IH]; simpl; intros acc id q H; [now right|].
  apply IH in H. destruct H as [[Hin Hid]|H]; [left; auto|].
  destruct (String.eqb_spec (get_id a) id) as [<-|Hne].
  - rewrite get_set_same in H. injection H as <-. left; auto.
  - rewrite get_set_other in H by assumption. now right.
Qed.

Lemma question_map_get_some pool : forall acc id,
  In id (map get_id pool) \/ Dict.mem id acc = true ->
  exists q,
    Dict.get id (fold_left (fun d q => Dict.set (get_id q) q d) pool acc)
    = Some q.
Proof.
  induction pool as [|a pool IH]; simpl; intros acc id H.
  - destruct H as [[]|H]. now apply mem_get_some.
  - apply IH. destruct H as [[Ha|Hin]|Hm]; [right|now left|right].
    + subst id. unfold Dict.mem. now rewrite get_set_same.
    + unfold Dict.mem in *.
      destruct (String.eqb_spec (get_id a) id) as [<-|Hne].
      * now rewrite get_set_same.
      * now rewrite get_set_other.
Qed.

Lemma take_ranked_members pool n ranked :
  incl (map snd ranked) (map get_id pool) ->
  let sel := QuizLoader.take_ranked (question_map_of pool) n ranked in
  map get_id sel = map snd (slice_to n ranked) /\ incl sel pool.
Proof.
  intros Hincl. unfold QuizLoader.take_ranked.
  assert (Hs : incl (map snd (slice_to n ranked)) (map get_id pool)).
  { intros id Hid. apply Hincl. rewrite slice_to_map in Hid.
    now apply slice_to_In in Hid. }
  induction (slice_to n ranked) as [|e l IH]; simpl; [split; [auto|easy]|].
  destruct IH as [IH1 IH2].
  { intros id Hid. apply Hs. now right. }
  destruct (question_map_get_some pool [] (snd e)) as [q Hq].
  { left. apply Hs. now left. }
  unfold QuizLoader.question_map_of. rewrite Hq. simpl.
  apply question_map_get_in in Hq. destruct Hq as [[Hin Hid]|Hq];
    [|discriminate Hq].
  split.
  - f_equal; [exact Hid|exact IH1].
  - intros z [<-|Hz]; auto.
Qed.

Lemma contains_true pool sel q :
  NoDup (map oid pool) -> incl sel pool -> In q pool ->
  QuizLoader.contains sel q = true <-> In q sel.
Proof.
  intros Hnd Hincl Hq. unfold QuizLoader.contains.
  rewrite existsb_exists. split.
  - intros (q' & Hin & Heq). apply Nat.eqb_eq in Heq.
    assert (q = q') by (apply (NoDup_map_inj oid pool); auto).
    now subst.
  - intros Hin. exists q. split; [exact Hin|apply Nat.eqb_refl].
Qed.

Lemma remaining_length pool sel :
  NoDup (map oid pool) -> incl sel pool -> NoDup (map oid sel) ->
  len (filter (fun q => negb (QuizLoader.contains sel q)) pool)
  = len pool - len sel.
Proof.
  intros Hnd Hincl Hsel. unfold len.
  pose proof (filter_length (QuizLoader.contains sel) pool) as Hf.
  assert (Hp : Permutation (filter (QuizLoader.contains sel) pool) sel).
  { apply NoDup_Permutation.
    - apply NoDup_filter. now apply NoDup_map_inv in Hnd.
    - now apply NoDup_map_inv in Hsel.
    - intros q. rewrite filter_In. split.
      + intros [Hq Hc]. now apply (contains_true pool sel q Hnd Hincl Hq).
      + intros Hq. split; [now apply Hincl|].
        apply (contains_true pool sel q Hnd Hincl); auto. }
  apply Permutation_length in Hp. lia.
Qed.

Lemma random_fill_members pool sel n g :
  NoDup (map oid pool) -> incl sel pool -> NoDup (map oid sel) ->
  let r := fst (QuizLoader.random_fill rng sample pool sel n g) in
  incl r pool /\ NoDup (map oid r)
  /\ len r = Z.max (len sel) (Z.min n (len pool)).
Proof.
  intros Hnd Hincl Hsel.
  assert (Hle : len sel <= len pool).
  { unfold len. apply inj_le. apply NoDup_incl_length; [|exact Hincl].
    now apply NoDup_map_inv in Hsel. }
  pose proof (remaining_length pool sel Hnd Hincl Hsel) as Hrem.
  unfold QuizLoader.random_fill.
  destruct (len sel <? n) eqn:E.
  - apply Z.ltb_lt in E.
    set (remaining := filter (fun q => negb (QuizLoader.contains sel q)) pool)
      in *.
    destruct remaining as [|q0 rem0] eqn:Er.
    + simpl. split; [exact Hincl|]. split; [exact Hsel|].
      unfold len in Hrem at 1. simpl in Hrem. lia.
    + rewrite <- Er in *.
      assert (Hk : 0 <= Z.min (n - len sel) (len remaining)
                   <= len remaining) by (unfold len at 2 3; lia).
      destruct (sample_spec g remaining _ Hk) as (Hlen & rest & Hperm).
      destruct (sample g remaining _) as [picks g'] eqn:Es.
      simpl in Hlen, Hperm |- *.
      assert (Hpin : incl picks remaining).
      { intros z Hz. apply (Permutation_in _ (Permutation_sym Hperm)).
        apply in_or_app. now left. }
      assert (Hrin : incl remaining pool).
      { intros z Hz. subst remaining. now apply filter_In in Hz. }
      split; [|split].
      * intros z Hz. apply in_app_or in Hz.
        destruct Hz as [Hz|Hz]; auto.
      * rewrite map_app. apply NoDup_app; [exact Hsel| |].
        -- assert (Hr : NoDup (map oid remaining)).
           { apply (NoDup_map_on oid pool); auto.
             subst remaining. apply NoDup_filter.
             now apply NoDup_map_inv in Hnd. }
           apply (Permutation_map oid) in Hperm.
           apply (Permutation_NoDup Hperm) in Hr.
           rewrite map_app in Hr. now apply NoDup_app_remove_r in Hr.
        -- intros a Ha Hb. apply in_map_iff in Ha, Hb.
           destruct Ha as (x & <- & Hx). destruct Hb as (y & Hxy & Hy).
           apply Hpin in Hy. subst remaining. apply filter_In in Hy.
           destruct Hy as [Hy Hc]. apply negb_true_iff in Hc.
           assert (Ht : QuizLoader.contains sel y = true).
           { unfold QuizLoader.contains. apply existsb_exists.
             exists x. split; [exact Hx|]. apply Nat.eqb_eq. auto. }
           congruence.
      * unfold len in *. rewrite length_app. lia.
  - apply Z.ltb_ge in E. simpl.
    split; [exact Hincl|]. split; [exact Hsel|]. lia.
Qed.

Lemma shuffle_members g l :
  let r := fst (shuffle g l) in
  len r = len l /\ (forall q, In q r <-> In q l)
  /\ (forall B (f : Question -> B), NoDup (map f l) -> NoDup (map f r)).
Proof.
  pose proof (shuffle_perm g l) as Hp. simpl. split; [|split].
  - unfold len. now rewrite (Permutation_length Hp).
  - intros q. split; intros H.
    + now apply (Permutation_in _ (Permutation_sym Hp)).
    + now apply (Permutation_in _ Hp).
  - intros B f H. apply (Permutation_NoDup (Permutation_map f Hp) H).
Qed.

(** What a ranking (ids without repetition, all of them ids of the pool)
    becomes on its way through the slice, the random fill and the
    shuffle. *)
Lemma ranked_quiz_members pool n ranked g :
  NoDup (map get_id pool) -> NoDup (map oid pool) -> 0 <= n ->
  NoDup (map snd ranked) -> incl (map snd ranked) (map get_id pool) ->
  let sel := QuizLoader.take_ranked (question_map_of pool) n ranked in
  let filled := fst (QuizLoader.random_fill rng sample pool sel n g) in
  forall g',
  let r := fst (shuffle g' filled) in
  len r = Z.min n (len pool) /\ incl r pool /\ NoDup (map get_id r).
Proof.
  intros Hid Hoid Hn Hr Hincl sel filled g' r.
  destruct (take_ranked_members pool n ranked Hincl) as [Hm Hs].
  fold sel in Hm, Hs.
  assert (Hsid : NoDup (map get_id sel)).
  { rewrite Hm, slice_to_map. now apply slice_to_NoDup. }
  assert (Hso : NoDup (map oid sel)).
  { apply (NoDup_map_on oid pool); auto. now apply NoDup_map_inv in Hsid. }
  assert (Hlen : len sel = Z.min n (len ranked)).
  { unfold len at 1. rewrite <- (length_map get_id), Hm, length_map.
    now apply slice_to_len. }
  assert (Hrl : len ranked <= len pool).
  { unfold len. rewrite <- (length_map snd ranked).
    rewrite <- (length_map get_id pool).
    apply inj_le. now apply NoDup_incl_length. }
  destruct (random_fill_members pool sel n g Hoid Hs Hso)
    as (Hfi & Hfo & Hfl). fold filled in Hfi, Hfo, Hfl.
  destruct (shuffle_members g' filled) as (Hl & Hin & Hnd).
  fold r in Hl, Hin. split; [|split].
  - rewrite Hl, Hfl. lia.
  - intros q Hq. apply Hfi. now apply Hin.
  - apply (NoDup_map_on get_id pool); auto.
    + apply (NoDup_map_inv oid). now apply Hnd.
    + intros q Hq. apply Hfi. now apply Hin.
Qed.

Lemma due_ranking_ids user pool now m :
  Permutation (map snd (QuizLoader.due_ranking md5_hex12 user pool now m))
    (get_questions_due_for_review user (map get_id pool) now m).
Proof.
  unfold QuizLoader.due_ranking.
  rewrite (Permutation_map snd (sort_desc_perm _ _)).
  rewrite map_map. simpl. now rewrite map_id.
Qed.

Lemma due_ranking_ok user pool now m :
  NoDup (map get_id pool) ->
  NoDup (map snd (QuizLoader.due_ranking md5_hex12 user pool now m))
  /\ incl (map snd (QuizLoader.due_ranking md5_hex12 user pool now m))
       (map get_id pool).
Proof.
  intros Hid. pose proof (due_ranking_ids user pool now m) as Hp. split.
  - apply (Permutation_NoDup (Permutation_sym Hp)).
    unfold get_questions_due_for_review. now apply NoDup_filter.
  - intros id Hin. apply (Permutation_in _ Hp) in Hin.
    unfold get_questions_due_for_review in Hin. now apply filter_In in Hin.
Qed.

Lemma initialize_pool_get user now pool : forall m key,
  Dict.get key
    (question_data
       (fold_left (fun m q => initialize_question (get_id q) user now m)
          pool m))
  = match Dict.get key (question_data m) with
    | Some d => Some d
    | None =>
        if existsb (fun q => String.eqb key (user_key user (get_id q))) pool
        then Some (fresh_data now) else None
    end.
Proof.
  induction pool as [|a pool IH]; intros m key; simpl.
  - now destruct (Dict.get key (question_data m)).
  - rewrite IH, initialize_question_get.
    destruct (Dict.get key (question_data m)); [reflexivity|].
    destruct (String.eqb key (user_key user (get_id a))); simpl;
      [reflexivity|].
    reflexivity.
Qed.

Lemma initialize_pool_file user now pool : forall m,
  data_file
    (fold_left (fun m q => initialize_question (get_id q) user now m) pool m)
  = data_file m
  /\ printed
       (fold_left (fun m q => initialize_question (get_id q) user now m)
          pool m)
     = printed m.
Proof.
  induction pool as [|a pool IH]; intros m; simpl; [auto|].
  destruct (IH (initialize_question (get_id a) user now m)) as [-> ->].
  unfold initialize_question.
  now destruct (Dict.mem (user_key user (get_id a)) (question_data m)).
Qed.

(** X17.  [get_spaced_repetition_quiz] leaves the manager with a record for
    every question of the pool: the fresh record where there was none, the
    old record untouched where there was one, and no other key added.  The
    new records are in memory only: the data file is not written, and
    nothing is printed. *)
Theorem spaced_quiz_initializes_pool user pool n now g m :
  let m' :=
    snd (QuizLoader.get_spaced_repetition_quiz md5_hex12 rng sample shuffle
           user pool n now g m) in
  (forall key,
      Dict.get key (question_data m')
      = match Dict.get key (question_data m) with
        | Some d => Some d
        | None =>
            if existsb
                 (fun q => String.eqb key (user_key user (get_id q))) pool
            then Some (fresh_data now) else None
        end)
  /\ Forall
       (fun q =>
          Dict.mem (user_key user (get_id q)) (question_data m') = true)
       pool
  /\ data_file m' = data_file m
  /\ printed m' = printed m.
Proof.
  assert (Hm : snd (QuizLoader.get_spaced_repetition_quiz md5_hex12 rng
                      sample shuffle user pool n now g m)
               = fold_left
                   (fun m q => initialize_question (get_id q) user now m)
                   pool m).
  { unfold QuizLoader.get_spaced_repetition_quiz.
    destruct pool as [|q pool]; [reflexivity|].
    destruct (QuizLoader.random_fill _ _ _ _ _ _) as [sel g1].
    now destruct (shuffle g1 sel). }
  cbv zeta. rewrite Hm.
  split; [apply initialize_pool_get|].
  split; [|apply initialize_pool_file].
  apply Forall_forall. intros q Hq. unfold Dict.mem.
  rewrite initialize_pool_get.
  destruct (Dict.get _ (question_data m)); [reflexivity|].
  replace (existsb _ pool) with true; [reflexivity|].
  symmetry. apply existsb_exists. exists q.
  split; [exact Hq|apply String.eqb_refl].
Qed.

(** X18.  For a pool of distinct questions with distinct ids and
    [max_questions >= 0], [get_spaced_repetition_quiz] returns exactly
    [min(max_questions, len(pool))] questions, all of them from the pool
    and no id twice. *)
Theorem spaced_quiz_members user pool n now g m :
  NoDup (map get_id pool) -> NoDup (map oid pool) -> 0 <= n ->
  let r :=
    fst (fst (QuizLoader.get_spaced_repetition_quiz md5_hex12 rng sample
                shuffle user pool n now g m)) in
  len r = Z.min n (len pool) /\ incl r pool /\ NoDup (map get_id r).
Proof.
  intros Hid Hoid Hn. unfold QuizLoader.get_spaced_repetition_quiz.
  destruct pool as [|q0 pool0] eqn:Ep.
  - simpl. split; [unfold len; simpl; lia|]. split; [easy|constructor].
  - rewrite <- Ep in *. clear Ep.
    set (m' := fold_left _ pool m).
    destruct (due_ranking_ok user pool now m' Hid) as [Hnd Hincl].
    pose proof (ranked_quiz_members pool n _ g Hid Hoid Hn Hnd Hincl) as H.
    cbv zeta in H.
    destruct (QuizLoader.random_fill _ _ _ _ _ _) as [sel g1].
    specialize (H g1). simpl in H.
    now destruct (shuffle g1 sel).
Qed.

Lemma difficult_ids user pool m :
  map snd
    (flat_map
       (fun q =>
          match Dict.get (user_key user (get_id q)) (question_data m) with
          | Some data =>
              if 0 <? total_attempts data
              then [(((1 - inject_Z (correct_attempts data)
                           / inject_Z (Z.max 1 (total_attempts data))) * 100
                      + (3.0 - ease_factor data) * 20)%Q, get_id q)]
              else []
          | None => []
          end) pool)
  = map get_id
      (filter
         (fun q =>
            match Dict.get (user_key user (get_id q)) (question_data m) with
            | Some data => 0 <? total_attempts data
            | None => false
            end) pool).
Proof.
  induction pool as [|q pool IH]; simpl; [reflexivity|].
  rewrite map_app, IH.
  destruct (Dict.get _ (question_data m)) as [data|]; [|reflexivity].
  now destruct (0 <? total_attempts data).
Qed.

Lemma difficult_ranking_ok user pool m :
  NoDup (map get_id pool) ->
  let scored :=
    flat_map
      (fun q =>
         match Dict.get (user_key user (get_id q)) (question_data m) with
         | Some data =>
             if 0 <? total_attempts data
             then [(((1 - inject_Z (correct_attempts data)
                          / inject_Z (Z.max 1 (total_attempts data))) * 100
                     + (3.0 - ease_factor data) * 20)%Q, get_id q)]
             else []
         | None => []
         end) pool in
  NoDup (map snd (sort_desc QuizLoader.tuple_lt scored))
  /\ incl (map snd (sort_desc QuizLoader.tuple_lt scored)) (map get_id pool).
Proof.
  intros Hid scored.
  assert (Hp : Permutation
                 (map snd (sort_desc QuizLoader.tuple_lt scored))
                 (map snd scored))
    by apply Permutation_map, sort_desc_perm.
  assert (Hids : NoDup (map snd scored)
                 /\ incl (map snd scored) (map get_id pool)).
  { subst scored. rewrite difficult_ids. split.
    - apply (NoDup_map_on get_id pool); auto.
      + apply NoDup_filter. now apply NoDup_map_inv in Hid.
      + intros z Hz. now apply filter_In in Hz.
    - intros id Hin. apply in_map_iff in Hin.
      destruct Hin as (q & <- & Hq). apply filter_In in Hq.
      apply in_map. tauto. }
  destruct Hids as [Hnd Hincl]. split.
  - apply (Permutation_NoDup (Permutation_sym Hp) Hnd).
  - intros id Hin. apply Hincl. now apply (Permutation_in _ Hp).
Qed.

(** X19.  For a pool of distinct questions with distinct ids and
    [max_questions >= 0], [get_difficult_questions_quiz] returns exactly
    [min(max_questions, len(pool))] questions, all of them from the pool
    and no id twice. *)
Theorem difficult_quiz_members user pool n g m :
  NoDup (map get_id pool) -> NoDup (map oid pool) -> 0 <= n ->
  let r :=
    fst (QuizLoader.get_difficult_questions_quiz md5_hex12 rng sample
           shuffle user pool n g m) in
  len r = Z.min n (len pool) /\ incl r pool /\ NoDup (map get_id r).
Proof.
  intros Hid Hoid Hn. unfold QuizLoader.get_difficult_questions_quiz.
  destruct pool as [|q0 pool0] eqn:Ep.
  - simpl. split; [unfold len; simpl; lia|]. split; [easy|constructor].
  - rewrite <- Ep in *. clear Ep.
    destruct (difficult_ranking_ok user pool m Hid) as [Hnd Hincl].
    pose proof (ranked_quiz_members pool n _ g Hid Hoid Hn Hnd Hincl) as H.
    cbv zeta in H.
    destruct (QuizLoader.random_fill _ _ _ _ _ _) as [sel g1].
    specialize (H g1). exact H.
Qed.

Lemma dedup_fold (base : list Question) : forall sel u s,
  s = map get_id u -> NoDup s -> incl u base -> incl sel base ->
  let r :=
    fold_left
      (fun acc q =>
         let '(unique_questions, seen) := acc in
         if existsb (String.eqb (get_id q)) seen then acc
         else ((unique_questions ++ [q])%list, (seen ++ [get_id q])%list))
      sel (u, s) in
  snd r = map get_id (fst r) /\ NoDup (snd r) /\ incl (fst r) base.
Proof.
  induction sel as [|q sel IH]; intros u s Hs Hnd Hu Hsel; simpl; [auto|].
  assert (Hsel' : incl sel base) by (intros z Hz; apply Hsel; now right).
  destruct (existsb (String.eqb (get_id q)) s) eqn:E.
  - now apply IH.
  - apply IH; auto.
    + rewrite map_app. now subst s.
    + apply NoDup_app; auto.
      * repeat constructor. easy.
      * intros a Ha [<-|[]].
        assert (Ht : existsb (String.eqb (get_id q)) s = true).
        { apply existsb_exists. exists (get_id q).
          split; [exact Ha|apply String.eqb_refl]. }
        congruence.
    + intros z Hz. apply in_app_or in Hz. destruct Hz as [Hz|[<-|[]]]; auto.
      apply Hsel. now left.
Qed.

Lemma seen_true pool u q :
  NoDup (map get_id pool) -> incl u pool -> In q pool ->
  existsb (String.eqb (get_id q)) (map get_id u) = true <-> In q u.
Proof.
  intros Hnd Hincl Hq. rewrite existsb_exists. split.
  - intros (id & Hin & Heq). apply String.eqb_eq in Heq. subst id.
    apply in_map_iff in Hin. destruct Hin as (q' & Hid & Hq').
    assert (q' = q) by (apply (NoDup_map_inj get_id pool); auto).
    now subst.
  - intros Hin. exists (get_id q).
    split; [now apply in_map|apply String.eqb_refl].
Qed.

Lemma unseen_length pool u :
  NoDup (map get_id pool) -> incl u pool -> NoDup (map get_id u) ->
  len (filter
         (fun q => negb (existsb (String.eqb (get_id q)) (map get_id u)))
         pool)
  = len pool - len u.
Proof.
  intros Hnd Hincl Hu. unfold len.
  pose proof (filter_length
                (fun q => existsb (String.eqb (get_id q)) (map get_id u))
                pool) as Hf.
  assert (Hp : Permutation
                 (filter
                    (fun q => existsb (String.eqb (get_id q)) (map get_id u))
                    pool) u).
  { apply NoDup_Permutation.
    - apply NoDup_filter. now apply NoDup_map_inv in Hnd.
    - now apply NoDup_map_inv in Hu.
    - intros q. rewrite filter_In. split.
      + intros [Hq Hc]. now apply (seen_true pool u q Hnd Hincl Hq).
      + intros Hq. split; [now apply Hincl|].
        apply (seen_true pool u q Hnd Hincl); auto. }
  apply Permutation_length in Hp. simpl in Hf. lia.
Qed.

Lemma sr_count_bounds (n : Z) :
  0 <= n -> 0 <= py_int (inject_Z n * 0.6) <= n.
Proof.
  intros Hn.
  assert (Hq : (0 <= inject_Z n)%Q) by (rewrite <- (Zle_Qle 0); exact Hn).
  rewrite py_int_floor by lra. split.
  - change 0 with (Qfloor 0). apply Qfloor_resp_le. lra.
  - rewrite <- (Qfloor_Z n) at 2. apply Qfloor_resp_le. lra.
Qed.

(** X20.  For a pool of distinct questions with distinct ids and
    [max_questions >= 0], [get_mixed_review_quiz] returns exactly
    [min(max_questions, len(pool))] questions, all of them from the pool
    and no id twice. *)
Theorem mixed_quiz_members user pool n now g m :
  NoDup (map get_id pool) -> NoDup (map oid pool) -> 0 <= n ->
  let r :=
    fst (QuizLoader.get_mixed_review_quiz md5_hex12 rng sample shuffle
           user pool n now g m) in
  len r = Z.min n (len pool) /\ incl r pool /\ NoDup (map get_id r).
Proof.
  intros Hid Hoid Hn. unfold QuizLoader.get_mixed_review_quiz.
  destruct pool as [|q0 pool0] eqn:Ep.
  - simpl. split; [unfold len; simpl; lia|]. split; [easy|constructor].
  - rewrite <- Ep in *. clear Ep.
    pose proof (sr_count_bounds n Hn) as Hsr.
    set (sr_count := py_int (inject_Z n * 0.6)) in *.
    (* the due part *)
    destruct (due_ranking_ok user pool now m Hid) as [Hdn Hdi].
    destruct (take_ranked_members pool sr_count _ Hdi) as [_ Hsrin].
    set (sr := QuizLoader.take_ranked _ sr_count _) in *.
    (* the difficult part *)
    assert (Hdiff : incl
                      (fst (QuizLoader.get_difficult_questions_quiz
                              md5_hex12 rng sample shuffle user pool
                              (n - sr_count) g m)) pool).
    { unfold QuizLoader.get_difficult_questions_quiz.
      destruct pool as [|q1 pool1] eqn:Ep; [easy|].
      rewrite <- Ep in *. clear Ep.
      destruct (difficult_ranking_ok user pool m Hid) as [Hnd Hincl].
      assert (Hc : 0 <= n - sr_count) by lia.
      pose proof (ranked_quiz_members pool (n - sr_count) _ g Hid Hoid Hc
                    Hnd Hincl) as H.
      cbv zeta in H.
      destruct (QuizLoader.random_fill _ _ _ _ _ _) as [sel g1].
      now specialize (H g1). }
    destruct (QuizLoader.get_difficult_questions_quiz _ _ _ _ _ _ _ _ _)
      as [difficult g1].
    simpl in Hdiff.
    (* duplicates removed *)
    assert (Hsel : incl (sr ++ difficult) pool).
    { intros z Hz. apply in_app_or in Hz. destruct Hz; auto. }
    pose proof (dedup_fold pool (sr ++ difficult) [] [] eq_refl
                  (NoDup_nil _) (incl_nil_l _) Hsel) as Hd.
    cbv zeta in Hd. unfold QuizLoader.dedup.
    destruct (fold_left _ (sr ++ difficult) ([], [])) as [unique seen].
    simpl in Hd. destruct Hd as (Hseen & Hnds & Huin). subst seen.
    assert (Hule : len unique <= len pool).
    { unfold len. apply inj_le. apply NoDup_incl_length; [|exact Huin].
      now apply NoDup_map_inv in Hnds. }
    pose proof (unseen_length pool unique Hid Huin Hnds) as Hrem.
    (* the fill *)
    assert (Hfill :
      let filled :=
        fst (if len unique <? n then
               match
                 filter
                   (fun q =>
                      negb (existsb (String.eqb (get_id q))
                              (map get_id unique))) pool
               with
               | [] => (unique, g1)
               | _ :: _ =>
                   let '(additional, g') :=
                     sample g1
                       (filter
                          (fun q =>
                             negb (existsb (String.eqb (get_id q))
                                     (map get_id unique))) pool)
                       (Z.min (n - len unique)
                          (len (filter
                                  (fun q =>
                                     negb (existsb (String.eqb (get_id q))
                                             (map get_id unique))) pool)))
                   in ((unique ++ additional)%list, g')
               end
             else (unique, g1)) in
      incl filled pool /\ NoDup (map get_id filled)
      /\ len filled = Z.max (len unique) (Z.min n (len pool))).
    { cbv zeta. destruct (len unique <? n) eqn:E.
      - apply Z.ltb_lt in E.
        set (remaining :=
               filter
                 (fun q =>
                    negb (existsb (String.eqb (get_id q))
                            (map get_id unique))) pool) in *.
        destruct remaining as [|qr rem0] eqn:Er.
        + simpl. split; [exact Huin|]. split; [exact Hnds|].
          unfold len in Hrem at 1. simpl in Hrem. lia.
        + rewrite <- Er in *.
          assert (Hk : 0 <= Z.min (n - len unique) (len remaining)
                       <= len remaining) by (unfold len at 2 3; lia).
          destruct (sample_spec g1 remaining _ Hk) as (Hlen & rest & Hperm).
          destruct (sample g1 remaining _) as [picks g'] eqn:Es.
          simpl in Hlen, Hperm |- *.
          assert (Hpin : incl picks remaining).
          { intros z Hz. apply (Permutation_in _ (Permutation_sym Hperm)).
            apply in_or_app. now left. }
          assert (Hrin : incl remaining pool).
          { intros z Hz. subst remaining. now apply filter_In in Hz. }
          split; [|split].
          * intros z Hz. apply in_app_or in Hz.
            destruct Hz as [Hz|Hz]; auto.
          * rewrite map_app. apply NoDup_app; [exact Hnds| |].
            -- assert (Hr : NoDup (map get_id remaining)).
               { apply (NoDup_map_on get_id pool); auto.
                 subst remaining. apply NoDup_filter.
                 now apply NoDup_map_inv in Hid. }
               apply (Permutation_map get_id) in Hperm.
               apply (Permutation_NoDup Hperm) in Hr.
               rewrite map_app in Hr. now apply NoDup_app_remove_r in Hr.
            -- intros a Ha Hb. apply in_map_iff in Hb.
               destruct Hb as (y & Hxy & Hy).
               apply Hpin in Hy. subst remaining. apply filter_In in Hy.
               destruct Hy as [Hy Hc]. apply negb_true_iff in Hc.
               assert (Ht : existsb (String.eqb (get_id y))
                              (map get_id unique) = true).
               { apply existsb_exists. exists a.
                 split; [exact Ha|]. apply String.eqb_eq. auto. }
               congruence.
          * unfold len in *. rewrite length_app. lia.
      - apply Z.ltb_ge in E. simpl.
        split; [exact Huin|]. split; [exact Hnds|]. lia. }
    cbv zeta in Hfill.
    destruct (if len unique <? n then _ else _) as [filled g2].
    simpl in Hfill. destruct Hfill as (Hfin & Hfnd & Hflen).
    destruct (shuffle_members g2 filled) as (Hl & Hin & Hnd).
    destruct (shuffle g2 filled) as [shuffled g3]. simpl in Hl, Hin, Hnd.
    simpl. split; [|split].
    + rewrite slice_to_len by exact Hn. rewrite Hl, Hflen. lia.
    + intros q Hq. apply slice_to_In in Hq. apply Hfin. now apply Hin.
    + rewrite slice_to_map. apply slice_to_NoDup. now apply Hnd.
Qed.

End SelectionFacts.

Lemma first_sample_spec :
  forall g l k,
    0 <= k <= len l ->
    len (fst (first_sample g l k)) = k
    /\ exists rest, Permutation l (fst (first_sample g l k) ++ rest).
Proof.
  intros g l k Hk. unfold first_sample, len in *. simpl. split.
  - rewrite length_firstn. lia.
  - exists (skipn (Z.to_nat k) l). now rewrite firstn_skipn.
Defined.

Lemma three_questions_ids :
  NoDup (map (QuizLoader.get_id plain_id) [q1; q2; q3]).
Proof.
  repeat constructor; simpl; intuition discriminate.
Defined.

Lemma three_questions_objects : NoDup (map oid [q1; q2; q3]).
Proof.
  repeat constructor; simpl; intuition discriminate.
Defined.

Lemma spaced_quiz_members_witness :
  (forall g l, Permutation l (fst (no_shuffle g l)))
  /\ NoDup (map (QuizLoader.get_id plain_id) [q1; q2; q3])
  /\ NoDup (map oid [q1; q2; q3])
  /\ 0 <= 10
  /\ let r :=
       fst (fst (QuizLoader.get_spaced_repetition_quiz plain_id unit
                   first_sample no_shuffle "ann" [q1; q2; q3] 10
                   (2 * day_us) tt practised)) in
     len r = Z.min 10 (len [q1; q2; q3])
     /\ incl r [q1; q2; q3]
     /\ NoDup (map (QuizLoader.get_id plain_id) r).
Proof.
  split; [exact no_shuffle_perm|].
  split; [exact three_questions_ids|].
  split; [exact three_questions_objects|]. split; [lia|].
  apply (spaced_quiz_members plain_id unit first_sample no_shuffle
           no_shuffle_perm first_sample_spec "ann" [q1; q2; q3] 10
           (2 * day_us) tt practised three_questions_ids
           three_questions_objects). lia.
Defined.

Lemma difficult_quiz_members_witness :
  (forall g l, Permutation l (fst (no_shuffle g l)))
  /\ NoDup (map (QuizLoader.get_id plain_id) [q1; q2; q3])
  /\ NoDup (map oid [q1; q2; q3])
  /\ 0 <= 2
  /\ let r :=
       fst (QuizLoader.get_difficult_questions_quiz plain_id unit
              first_sample no_shuffle "ann" [q1; q2; q3] 2 tt practised) in
     len r = Z.min 2 (len [q1; q2; q3])
     /\ incl r [q1; q2; q3]
     /\ NoDup (map (QuizLoader.get_id plain_id) r).
Proof.
  split; [exact no_shuffle_perm|].
  split; [exact three_questions_ids|].
  split; [exact three_questions_objects|]. split; [lia|].
  apply (difficult_quiz_members plain_id unit first_sample no_shuffle
           no_shuffle_perm first_sample_spec "ann" [q1; q2; q3] 2 tt
           practised three_questions_ids three_questions_objects). lia.
Defined.

Lemma mixed_quiz_members_witness :
  (forall g l, Permutation l (fst (no_shuffle g l)))
  /\ NoDup (map (QuizLoader.get_id plain_id) [q1; q2; q3])
  /\ NoDup (map oid [q1; q2; q3])
  /\ 0 <= 2
  /\ let r :=
       fst (QuizLoader.get_mixed_review_quiz plain_id unit first_sample
              no_shuffle "ann" [q1; q2; q3] 2 (2 * day_us) tt practised) in
     len r = Z.min 2 (len [q1; q2; q3])
     /\ incl r [q1; q2; q3]
     /\ NoDup (map (QuizLoader.get_id plain_id) r).
Proof.
  split; [exact no_shuffle_perm|].
  split; [exact three_questions_ids|].
  split; [exact three_questions_objects|]. split; [lia|].
  apply (mixed_quiz_members plain_id unit first_sample no_shuffle
           no_shuffle_perm first_sample_spec "ann" [q1; q2; q3] 2
           (2 * day_us) tt practised three_questions_ids
           three_questions_objects). lia.
Defined.

(** ** Updates seen through the statistics *)








(** ** Dictionaries built by a loop *)

Lemma NoDup_map_inj_in {A B} (g : A -> B) (l : list A) :
  (forall x y, In x l -> In y l -> g x = g y -> x = y) ->
  NoDup l -> NoDup (map g l).
Proof.
  intros Hinj Hl. induction Hl as [|x l Hx Hl IH]; simpl; constructor.
  - intros Hin. apply in_map_iff in Hin. destruct Hin as (y & Hg & Hy).
    assert (y = x) by (apply Hinj; simpl; auto).
    subst y. contradiction.
  - apply IH. intros a b Ha Hb. apply Hinj; simpl; auto.
Qed.

Lemma set_fresh {V} (k : string) (v : V) (d : Dict.t V) :
  ~ In k (Dict.keys d) -> Dict.set k v d = (d ++ [(k, v)])%list.
Proof.
  unfold Dict.keys. induction d as [|[k' v'] d IH]; simpl; intros Hk;
    [reflexivity|].
  destruct (String.eqb_spec k k') as [->|Hne]; [tauto|].
  rewrite IH; tauto.
Qed.

Lemma keys_set {V} (k : string) (v : V) (d : Dict.t V) :
  Dict.keys (Dict.set k v d)
  = if Dict.mem k d then Dict.keys d else (Dict.keys d ++ [k])%list.
Proof.
  unfold Dict.keys, Dict.mem. induction d as [|[k' v'] d IH]; simpl;
    [reflexivity|].
  destruct (String.eqb_spec k k') as [->|Hne]; simpl; [reflexivity|].
  rewrite IH. now destruct (Dict.get k d).
Qed.

Lemma mem_keys {V} (k : string) (d : Dict.t V) :
  Dict.mem k d = false -> ~ In k (Dict.keys d).
Proof.
  unfold Dict.keys, Dict.mem. induction d as [|[k' v'] d IH]; simpl;
    [tauto|].
  destruct (String.eqb_spec k k') as [->|Hne]; [discriminate|].
  intros H [Heq|Hin]; [congruence|]. now apply IH.
Qed.

Lemma set_keys_NoDup {V} (k : string) (v : V) (d : Dict.t V) :
  NoDup (Dict.keys d) -> NoDup (Dict.keys (Dict.set k v d)).
Proof.
  intros Hd. rewrite keys_set. destruct (Dict.mem k d) eqn:E; [exact Hd|].
  apply NoDup_app; auto.
  - repeat constructor. easy.
  - intros a Ha [<-|[]]. now apply (mem_keys _ _ E).
Qed.

(** The managers a program builds are dictionaries: no key twice. *)
Lemma run_keys_NoDup cs : forall m m',
  NoDup (Dict.keys (question_data m)) ->
  run cs m = Returned m' ->
  NoDup (Dict.keys (question_data m')).
Proof.
  induction cs as [|c cs IH]; intros m m' Hm Hrun; simpl in Hrun.
  - now injection Hrun as <-.
  - destruct (run_call c m) as [m1|e m1] eqn:E; [|discriminate].
    apply (IH m1 m'); [|exact Hrun].
    assert (Hi : forall qid user now,
               NoDup (Dict.keys (question_data
                                   (initialize_question qid user now m)))).
    { intros qid user now. unfold initialize_question.
      destruct (Dict.mem _ _); [exact Hm|]. simpl.
      now apply set_keys_NoDup. }
    destruct c as [qid user now|qid user wc rt now w]; simpl in E.
    + injection E as <-. apply Hi.
    + unfold update_question_performance in E.
      set (m0 := if Dict.mem (user_key user qid) (question_data m) then m
                 else initialize_question qid user now m) in E.
      assert (H0 : NoDup (Dict.keys (question_data m0))).
      { subst m0. destruct (Dict.mem _ _); [exact Hm|apply Hi]. }
      destruct (Dict.get (user_key user qid) (question_data m0));
        [|discriminate].
      destruct (_ =? 0); [discriminate|].
      destruct (sm2_step wc _). injection E as <-.
      rewrite question_data_save. simpl. now apply set_keys_NoDup.
Qed.

Lemma reachable_keys_NoDup m :
  reachable m -> NoDup (Dict.keys (question_data m)).
Proof.
  intros [cs Hrun]. apply (run_keys_NoDup cs new_manager m); [|exact Hrun].
  constructor.
Qed.

Lemma fold_set_filter (p : string -> bool) (phi : string -> string)
    (kvs : Dict.t QuestionData) : forall acc,
  NoDup (Dict.keys acc
         ++ map (fun kv => phi (fst kv))
              (filter (fun kv => p (fst kv)) kvs)) ->
  fold_left
    (fun ud kv =>
       let '(key, data) := kv in
       if p key then Dict.set (phi key) data ud else ud)
    kvs acc
  = (acc ++ map (fun kv => (phi (fst kv), snd kv))
              (filter (fun kv => p (fst kv)) kvs))%list.
Proof.
  induction kvs as [|[k v] kvs IH]; intros acc Hnd; simpl.
  - now rewrite app_nil_r.
  - simpl in Hnd. destruct (p k); simpl in *.
    + pose proof (NoDup_remove_2 _ _ _ Hnd) as Hk.
      rewrite set_fresh by (intros Hin; apply Hk, in_or_app; now left).
      rewrite IH.
      * now rewrite <- app_assoc.
      * unfold Dict.keys in *. rewrite map_app, <- app_assoc. exact Hnd.
    + now apply IH.
Qed.

Lemma append_inj_l (b r1 r2 : string) :
  (b ++ r1 = b ++ r2)%string -> r1 = r2.
Proof.
  induction b as [|c b IH]; simpl; [auto|]. intros [= H]. auto.
Qed.

Lemma split_colon_app (p r a b : string) :
  split_colon p = Some (a, b) ->
  split_colon (p ++ r) = Some (a, (b ++ r)%string).
Proof.
  revert a. induction p as [|c p IH]; simpl; intros a; [discriminate|].
  destruct (Ascii.eqb c ":"); [now intros [= <- <-]|].
  destruct (split_colon p) as [[a' b']|]; [|discriminate].
  intros [= <- <-]. now rewrite (IH a' eq_refl).
Qed.

(** Among the keys of one user the text after the first colon tells the
    keys apart, also when the user name has colons. *)
Lemma question_id_of_key_inj user k1 k2 :
  key_of_user user k1 = true -> key_of_user user k2 = true ->
  question_id_of_key k1 = question_id_of_key k2 -> k1 = k2.
Proof.
  unfold key_of_user. intros H1 H2 Hq.
  apply prefix_split in H1, H2. destruct H1 as [r1 ->], H2 as [r2 ->].
  destruct (split_colon (user ++ ":")) as [[a b]|] eqn:E.
  - unfold question_id_of_key in Hq.
    rewrite (split_colon_app _ r1 a b E), (split_colon_app _ r2 a b E) in Hq.
    apply append_inj_l in Hq. now subst.
  - exfalso. now apply (split_colon_has_colon user "").
Qed.

Lemma user_data_of_filter user m :
  NoDup (Dict.keys (question_data m)) ->
  ErrorAnalyzer.user_data_of user m
  = map (fun kv => (question_id_of_key (fst kv), snd kv))
      (user_questions user m)
  /\ user_data_by_key user m = user_questions user m.
Proof.
  intros Hnd. unfold ErrorAnalyzer.user_data_of, user_data_by_key,
    user_questions.
  assert (Hf : NoDup (filter (fun kv => key_of_user user (fst kv))
                        (question_data m))).
  { apply NoDup_filter. now apply NoDup_map_inv in Hnd. }
  split.
  - rewrite (fold_set_filter (key_of_user user) question_id_of_key).
    + reflexivity.
    + simpl. apply NoDup_map_inj_in; [|exact Hf].
      intros x y Hx Hy Hq. apply filter_In in Hx, Hy.
      destruct Hx as [Hx Hpx], Hy as [Hy Hpy].
      apply (NoDup_map_inj fst (question_data m)); auto.
      now apply (question_id_of_key_inj user).
  - rewrite (fold_set_filter (key_of_user user) (fun k => k)).
    + simpl. rewrite <- (map_id (filter _ _)) at 2.
      apply map_ext. now intros [k v].
    + simpl. apply (NoDup_map_on fst (question_data m)); auto.
      intros z Hz. now apply filter_In in Hz.
Qed.

(** X22.  On a manager that is a dictionary (no key twice) the three
    reports agree: the error summary, the statistics and the learning
    streak of a user count the same questions and the same attempts. *)
Theorem reports_agree user m :
  NoDup (Dict.keys (question_data m)) ->
  let st := get_user_statistics user m in
  let sm := ErrorAnalyzer.get_user_error_summary user m in
  ErrorAnalyzer.es_total_questions_attempted sm = total_questions st
  /\ ErrorAnalyzer.es_total_attempts sm
     = (if total_questions st =? 0 then None else Some (total_reviews st))
  /\ match get_learning_streak user m with
     | NoStreak _ _ => total_questions st = 0
     | Streak questions _ _ attempts =>
         questions = total_questions st /\ attempts = total_reviews st
     end.
Proof.
  intros Hnd. destruct (user_data_of_filter user m Hnd) as [Hs Hk].
  unfold ErrorAnalyzer.get_user_error_summary, get_learning_streak,
    get_user_statistics.
  rewrite Hs, Hk. unfold Dict.values. rewrite map_map. simpl.
  destruct (user_questions user m) as [|kv uq]; [repeat split|].
  cbn [map]. cbv zeta.
  cbn [ErrorAnalyzer.es_total_questions_attempted
    ErrorAnalyzer.es_total_attempts total_questions total_reviews].
  assert (Hl : len ((question_id_of_key (fst kv), snd kv)
                    :: map (fun kv => (question_id_of_key (fst kv), snd kv))
                         uq)
               = len (snd kv :: map snd uq))
    by (unfold len; simpl; now rewrite !length_map).
  assert (Hl' : len (kv :: uq) = len (snd kv :: map snd uq))
    by (unfold len; simpl; now rewrite !length_map).
  rewrite Hl, Hl'.
  replace (len (snd kv :: map snd uq) =? 0) with false
    by (symmetry; apply Z.eqb_neq; unfold len; simpl length; lia).
  repeat split; simpl; rewrite ?map_map; reflexivity.
Qed.

Lemma reports_agree_witness :
  NoDup (Dict.keys (question_data practised))
  /\ let st := get_user_statistics "ann" practised in
     let sm := ErrorAnalyzer.get_user_error_summary "ann" practised in
     ErrorAnalyzer.es_total_questions_attempted sm = total_questions st
     /\ ErrorAnalyzer.es_total_attempts sm
        = (if total_questions st =? 0 then None else Some (total_reviews st))
     /\ match get_learning_streak "ann" practised with
        | NoStreak _ _ => total_questions st = 0
        | Streak questions _ _ attempts =>
            questions = total_questions st /\ attempts = total_reviews st
        end.
Proof.
  assert (H : NoDup (Dict.keys (question_data practised))).
  { vm_compute. repeat constructor; simpl; intuition discriminate. }
  split; [exact H|]. apply (reports_agree "ann" practised H).
Defined.

(** ** The dates of the schedule *)

Lemma schedule_new_fresh d s :
  ~ In d (map fst s) -> schedule_new d s = (s ++ [(d, [])])%list.
Proof.
  induction s as [|[d' l] s IH]; simpl; intros Hd; [reflexivity|].
  destruct (Z.eqb_spec d' d) as [->|Hne]; [tauto|].
  rewrite IH; tauto.
Qed.

Lemma schedule_init_dates (f : Z -> Z) : forall (l : list Z) s,
  NoDup (map fst s ++ map f l) ->
  map fst (fold_left (fun s i => schedule_new (f i) s) l s)
  = (map fst s ++ map f l)%list.
Proof.
  induction l as [|i l IH]; intros s Hnd; simpl.
  - now rewrite app_nil_r.
  - simpl in Hnd. pose proof (NoDup_remove_2 _ _ _ Hnd) as Hi.
    rewrite schedule_new_fresh
      by (intros Hin; apply Hi, in_or_app; now left).
    rewrite IH; rewrite map_app, <- app_assoc; [reflexivity|exact Hnd].
Qed.

Lemma schedule_append_dates d q s :
  map fst (schedule_append d q s) = map fst s.
Proof.
  induction s as [|[d' l] s IH]; simpl; [reflexivity|].
  destruct (d' =? d); simpl; [reflexivity|now rewrite IH].
Qed.

Lemma schedule_loop_dates user days now : forall kvs s,
  map fst
    (fold_left
       (fun s kv =>
          let '(key, data) := kv in
          if key_of_user user key then
            if (now <=? next_review data)
               && (next_review data <=? now + timedelta_days days)
            then
              let d := date_key (next_review data) in
              if schedule_mem d s
              then schedule_append d (question_id_of_key key) s
              else s
            else s
          else s)
       kvs s)
  = map fst s.
Proof.
  induction kvs as [|[key data] kvs IH]; intros s; [reflexivity|].
  cbn [fold_left]. rewrite IH.
  destruct (key_of_user user key); [|reflexivity].
  destruct (_ && _); [|reflexivity].
  cbv zeta. destruct (schedule_mem _ s); [|reflexivity].
  apply schedule_append_dates.
Qed.

(** X23.  The keys of the schedule are the [days] consecutive dates that
    start with the date of [now], in that order and each once, whatever
    the records are; for [days <= 0] the schedule is empty. *)
Theorem schedule_dates user days now m :
  map fst (get_review_schedule user days now m)
  = map (fun i => date_key now + i) (range days)
  /\ len (get_review_schedule user days now m) = Z.max 0 days.
Proof.
  assert (H : map fst (get_review_schedule user days now m)
              = map (fun i => date_key now + i) (range days)).
  { unfold get_review_schedule.
    rewrite schedule_loop_dates, schedule_init_dates; simpl.
    - apply map_ext. intros i. apply date_key_add.
    - unfold range. rewrite map_map. apply NoDup_map_inj_in.
      + intros x y _ _ Hxy. rewrite !date_key_add in Hxy. lia.
      + apply seq_NoDup. }
  split; [exact H|].
  unfold len. rewrite <- (length_map fst), H.
  unfold range. rewrite !length_map, length_seq. lia.
Qed.
